(** * whatsapp-api: session state machine, phone-number normaliser and
      readiness-gated dispatch of [src/app.js]

    The development embeds the stateful core of [src/app.js]:

    - the two process-wide variables [isClientReady] and [clientState]
      (lines 11-12) as a record that every handler receives and returns;
    - the lifecycle-event handlers registered with [client.on] (lines 56-105)
      and the callbacks they hand to [setTimeout];
    - [isValidPhoneNumber] and [formatPhoneNumber] (lines 109-126);
    - the three routes [/send-message], [/status] and [/restart]
      (lines 130-259) together with the [validateSecretKey] middleware
      (lines 14-32).

    JavaScript strings are modelled by [string]; every string the program
    inspects is compared against ASCII literals only, and [/\D/g] removes every
    character outside ['0'..'9'], so a byte-wise reading of the text agrees
    with the UTF-16 one on everything the code looks at.  The transport
    collaborator ([whatsapp-web.js]) is outside the repository: its answers
    are inputs of the model and the calls made to it are logged. *)

From Stdlib Require Import Bool Arith Lia List ZArith.
From Stdlib Require Import Strings.Ascii Strings.String.
Import ListNotations.

Open Scope string_scope.
Open Scope bool_scope.
Open Scope nat_scope.

(** ** JavaScript string primitives used by the program *)

Module JsString.

(** [c] is one of ['0'..'9']: the complement of the class [\D]. *)
Definition isDigit (c : ascii) : bool :=
  (48 <=? nat_of_ascii c) && (nat_of_ascii c <=? 57).

(** [s.replace(/\D/g, '')]. *)
Fixpoint stripNonDigits (s : string) : string :=
  match s with
  | EmptyString => EmptyString
  | String c t =>
      if isDigit c then String c (stripNonDigits t) else stripNonDigits t
  end.

(** [s.startsWith(p)]. *)
Definition startsWith (s p : string) : bool := String.prefix p s.

(** [s.substring(1)]. *)
Definition substring1 (s : string) : string :=
  match s with
  | EmptyString => EmptyString
  | String _ t => t
  end.

(** [s.includes(needle)]. *)
Fixpoint includes (s needle : string) : bool :=
  String.prefix needle s ||
  match s with
  | EmptyString => false
  | String _ t => includes t needle
  end.

(** [s.endsWith(suffix)]: some tail of [s] is [suffix]. *)
Fixpoint endsWith (s suffix : string) : bool :=
  String.eqb s suffix ||
  match s with
  | EmptyString => false
  | String _ t => endsWith t suffix
  end.

(** Every character of [s] is a decimal digit. *)
Fixpoint allDigits (s : string) : bool :=
  match s with
  | EmptyString => true
  | String c t => isDigit c && allDigits t
  end.

(** JavaScript truthiness of a value that is a string or [undefined]. *)
Definition truthy (v : option string) : bool :=
  match v with
  | None => false
  | Some s => negb (String.eqb s "")
  end.

End JsString.
Import JsString.

(** ** PhoneAddress normaliser (lines 109-126 and 154) *)

(** [isValidPhoneNumber], lines 109-112. *)
Definition isValidPhoneNumber (number : string) : bool :=
  let cleanNumber := stripNonDigits number in
  (10 <=? String.length cleanNumber) && (String.length cleanNumber <=? 15).

(** [formatPhoneNumber], lines 114-126: two consecutive [if] statements that
    reassign the local [cleanNumber]. *)
Definition formatPhoneNumber (number : string) : string :=
  let cleanNumber := stripNonDigits number in
  let cleanNumber :=
    if startsWith cleanNumber "0"
    then "62" ++ substring1 cleanNumber
    else cleanNumber in
  let cleanNumber :=
    if negb (startsWith cleanNumber "62") && (10 <? String.length cleanNumber)
    then "62" ++ cleanNumber
    else cleanNumber in
  cleanNumber ++ "@c.us".

(** The [chatId] constant of line 154. *)
Definition chatId (number : string) : string :=
  if includes number "@c.us" then number else formatPhoneNumber number.

(** The normaliser in the words of the specification: a leading [0] is
    replaced by the country prefix; otherwise the prefix is prepended when the
    digits do not start with it and are more than ten; the digits are kept
    as they are in the remaining case. *)
Definition canonicalDigits_spec (digits : string) : string :=
  if startsWith digits "0" then "62" ++ substring1 digits
  else if negb (startsWith digits "62") && (10 <? String.length digits)
       then "62" ++ digits
       else digits.

(** ** HTTP plumbing *)

(** A JSON value of a response body: the program only emits booleans and
    strings. *)
Inductive json : Type :=
| JBool (b : bool)
| JString (s : string).

(** [res.status(code).json(body)]; [res.json(body)] answers with code 200. *)
Record response : Type := mkResponse {
  httpStatus : nat;
  body : list (string * json)
}.

(** The parts of an incoming request the program reads: the [x-secret-key]
    header and the [secret_key], [number] and [message] fields of the JSON
    body.  [None] is JavaScript's [undefined] (field absent); the fields
    that are present hold strings. *)
Record request : Type := mkRequest {
  header_secret_key : option string;
  body_secret_key : option string;
  body_number : option string;
  body_message : option string
}.

(** [a === b] on values that are strings or [undefined]. *)
Definition strictEq (a b : option string) : bool :=
  match a, b with
  | Some x, Some y => String.eqb x y
  | None, None => true
  | _, _ => false
  end.

(** [validateSecretKey], lines 14-32.  [SECRET_KEY] is
    [process.env.SECRET_KEY].  [Some r]: the middleware answered [r] itself;
    [None]: it called [next()]. *)
Definition validateSecretKey (SECRET_KEY : option string) (req : request)
  : option response :=
  let secretKey :=
    if truthy (header_secret_key req) then header_secret_key req
    else body_secret_key req in
  if negb (truthy secretKey) then
    Some (mkResponse 401
            [("status", JBool false);
             ("message", JString "Secret key diperlukan. Gunakan header x-secret-key atau body secret_key")])
  else if negb (strictEq secretKey SECRET_KEY) then
    Some (mkResponse 401
            [("status", JBool false);
             ("message", JString "Secret key tidak valid")])
  else None.

(** ** Session state (lines 11-12) *)

Record session : Type := mkSession {
  isClientReady : bool;
  clientState : string
}.

Definition initialSession : session := mkSession false "INITIALIZING".

(** Callbacks handed to [setTimeout]: the two grace timers, the
    re-initialisation of [/restart] and the [sleep(2000)] that suspends a
    [/send-message] handler holding its [chatId] and [message]. *)
Inductive timer : Type :=
| AuthGrace
| LoadGrace
| Reinit
| Pacing (chat message : string).

(** Calls made on the transport collaborator [client]. *)
Inductive call : Type :=
| CallInitialize
| CallDestroy
| CallGetState
| CallSendMessage (chat message : string).

(** ** Lifecycle-event handlers (lines 56-105)

    Each handler returns the new session and the timers it arms. *)

(** [client.on('qr')], lines 56-61. *)
Definition on_qr (s : session) : session * list timer :=
  (mkSession false "QR_GENERATED", []).

(** [client.on('ready')], lines 63-67. *)
Definition on_ready (s : session) : session * list timer :=
  (mkSession true "CONNECTED", []).

(** [client.on('authenticated')], lines 69-79. *)
Definition on_authenticated (s : session) : session * list timer :=
  (mkSession (isClientReady s) "AUTHENTICATED", [AuthGrace]).

(** The callback of the 5000 ms timer, lines 72-78. *)
Definition authenticated_timeout (s : session) : session :=
  if String.eqb (clientState s) "AUTHENTICATED"
  then mkSession true "CONNECTED"
  else s.

(** [client.on('auth_failure')], lines 81-85. *)
Definition on_auth_failure (s : session) : session * list timer :=
  (mkSession false "AUTH_FAILURE", []).

(** [client.on('disconnected')], lines 87-91. *)
Definition on_disconnected (s : session) : session * list timer :=
  (mkSession false "DISCONNECTED", []).

(** [client.on('loading_screen')], lines 93-105. *)
Definition on_loading_screen (percent : Z) (s : session)
  : session * list timer :=
  (mkSession (isClientReady s) "LOADING",
   if Z.eqb percent 100 then [LoadGrace] else []).

(** The callback of the 3000 ms timer, lines 97-103. *)
Definition loading_timeout (s : session) : session :=
  if negb (isClientReady s)
  then mkSession true "CONNECTED"
  else s.

(** ** POST /send-message (lines 130-200) *)

(** How [client.sendMessage] settles: it resolves with a message whose
    [id._serialized] is [serializedId], or rejects with an [Error] whose
    [message] is [errorMessage]. *)
Inductive send_result : Type :=
| Delivered (serializedId : string)
| Rejected (errorMessage : string).

(** The handler up to its first [await]: either it has answered, or it is
    suspended in [sleep(2000)] holding [chatId] and [message]. *)
Inductive suspended : Type :=
| Answer (r : response)
| Sleep (chat message : string).

(** Lines 131-154. *)
Definition send_message_begin (s : session) (req : request) : suspended :=
  let missing :=
    Answer (mkResponse 400
              [("status", JBool false);
               ("message", JString "Parameter number dan message wajib diisi")]) in
  match body_number req, body_message req with
  | Some number, Some message =>
      if negb (truthy (Some number)) || negb (truthy (Some message)) then
        missing
      else if negb (isValidPhoneNumber number) then
        Answer (mkResponse 400
                  [("status", JBool false);
                   ("message", JString "Format nomor telepon tidak valid")])
      else if negb (isClientReady s)
              || (negb (String.eqb (clientState s) "CONNECTED")
                  && negb (String.eqb (clientState s) "AUTHENTICATED")) then
        Answer (mkResponse 503
                  [("status", JBool false);
                   ("message",
                    JString ("WhatsApp client tidak ready. Status: "
                             ++ clientState s
                             ++ ". Tunggu beberapa saat lagi."))])
      else Sleep (chatId number) message
  | _, _ => missing
  end.

(** Lines 159-199: what the handler does once [client.sendMessage] has
    settled. *)
Definition send_message_settle (s : session) (chat : string) (r : send_result)
  : response * session :=
  match r with
  | Delivered serializedId =>
      (mkResponse 200
         [("status", JBool true);
          ("message", JString "Pesan berhasil dikirim");
          ("to", JString chat);
          ("messageId", JString serializedId)],
       s)
  | Rejected errorMessage =>
      if includes errorMessage "Chat not found" then
        (mkResponse 404
           [("status", JBool false);
            ("message", JString "Nomor WhatsApp tidak valid atau tidak terdaftar")],
         s)
      else if includes errorMessage "phone number is not registered" then
        (mkResponse 404
           [("status", JBool false);
            ("message", JString "Nomor WhatsApp tidak terdaftar")],
         s)
      else if includes errorMessage "Evaluation failed" then
        (mkResponse 503
           [("status", JBool false);
            ("message", JString "Terjadi kesalahan pada WhatsApp session. Silakan restart aplikasi.")],
         mkSession false "ERROR")
      else
        (mkResponse 500
           [("status", JBool false);
            ("message", JString "Gagal mengirim pesan");
            ("error", JString errorMessage)],
         s)
  end.

(** The handler run without interleaving: no other event is processed while
    it sleeps and awaits.  [transport chat message] is how the transport
    settles that send.  The result carries the calls made on the transport. *)
Definition send_message_handler
    (s : session) (req : request) (transport : string -> string -> send_result)
  : response * session * list call :=
  match send_message_begin s req with
  | Answer r => (r, s, [])
  | Sleep chat message =>
      let '(r, s') := send_message_settle s chat (transport chat message) in
      (r, s', [CallSendMessage chat message])
  end.

(** The route: middleware, then handler. *)
Definition post_send_message
    (SECRET_KEY : option string) (s : session) (req : request)
    (transport : string -> string -> send_result)
  : response * session * list call :=
  match validateSecretKey SECRET_KEY req with
  | Some r => (r, s, [])
  | None => send_message_handler s req transport
  end.

(** ** GET /status (lines 202-234) *)

(** How [client.getState()] settles. *)
Inductive state_answer : Type :=
| StateIs (state : string)
| StateFails.

(** Lines 203-222, run without interleaving; [now] is
    [new Date().toISOString()] and [q] is how the transport answers if it is
    asked.  The outer [catch] (lines 224-233) guards statements that do not
    throw and is not reached. *)
Definition status_handler (s : session) (q : state_answer) (now : string)
  : response * session * list call :=
  let currentState := clientState s in
  let '(currentState, s, made) :=
    if isClientReady s then
      match q with
      | StateIs state => (state, s, [CallGetState])
      | StateFails => ("ERROR", mkSession false (clientState s), [CallGetState])
      end
    else (currentState, s, []) in
  (mkResponse 200
     [("status", JBool true);
      ("message", JString "API WhatsApp berjalan normal");
      ("clientReady", JBool (isClientReady s));
      ("clientState", JString currentState);
      ("timestamp", JString now)],
   s, made).

Definition get_status
    (SECRET_KEY : option string) (s : session) (req : request)
    (q : state_answer) (now : string)
  : response * session * list call :=
  match validateSecretKey SECRET_KEY req with
  | Some r => (r, s, [])
  | None => status_handler s q now
  end.

(** ** GET /restart (lines 236-259) *)

(** How [client.destroy()] settles. *)
Inductive destroy_answer : Type :=
| Destroyed
| DestroyFails (errorMessage : string).

(** Lines 237-258, run without interleaving: the two assignments precede
    [await client.destroy()], and the re-initialisation is armed only when
    the teardown succeeds. *)
Definition restart_handler (s : session) (d : destroy_answer)
  : response * session * list call * list timer :=
  let s := mkSession false "RESTARTING" in
  match d with
  | Destroyed =>
      (mkResponse 200
         [("status", JBool true);
          ("message", JString "Client WhatsApp sedang di-restart")],
       s, [CallDestroy], [Reinit])
  | DestroyFails errorMessage =>
      (mkResponse 500
         [("status", JBool false);
          ("message", JString "Gagal restart client");
          ("error", JString errorMessage)],
       s, [CallDestroy], [])
  end.

Definition get_restart
    (SECRET_KEY : option string) (s : session) (req : request)
    (d : destroy_answer)
  : response * session * list call * list timer :=
  match validateSecretKey SECRET_KEY req with
  | Some r => (r, s, [], [])
  | None => restart_handler s d
  end.

(** ** The event loop

    Node runs one callback at a time.  A world is the session together with
    the timers that are armed, the sends awaiting the transport, the calls
    made on the transport so far and the responses written so far.  Delays
    are abstracted: an armed timer may fire at any later turn of the loop. *)

Record world : Type := mkWorld {
  sess : session;
  timers : list timer;
  inflight : list (string * string);
  transportLog : list call;
  answered : list response
}.

(** The world after the top-level statements of the script: line 128 has
    called [client.initialize()]. *)
Definition initialWorld : world :=
  mkWorld initialSession [] [] [CallInitialize] [].

(** What the loop can be handed: a lifecycle event of the transport, the
    expiry of an armed timer, the settling of a pending send, or an HTTP
    request (with the answer the transport gives if the handler asks). *)
Inductive event : Type :=
| Qr
| Ready
| Authenticated
| AuthFailure
| Disconnected
| LoadingScreen (percent : Z)
| Fire (t : timer)
| SendSettled (chat message : string) (r : send_result)
| HttpSendMessage (req : request)
| HttpStatus (req : request) (q : state_answer) (now : string)
| HttpRestart (req : request) (d : destroy_answer).

Definition timer_eqb (a b : timer) : bool :=
  match a, b with
  | AuthGrace, AuthGrace => true
  | LoadGrace, LoadGrace => true
  | Reinit, Reinit => true
  | Pacing c m, Pacing c' m' => String.eqb c c' && String.eqb m m'
  | _, _ => false
  end.

(** Remove the first element satisfying [p]; [None] when there is none. *)
Fixpoint take {A : Type} (p : A -> bool) (l : list A) : option (list A) :=
  match l with
  | [] => None
  | x :: l' =>
      if p x then Some l'
      else match take p l' with
           | Some r => Some (x :: r)
           | None => None
           end
  end.

Definition lifecycle (h : session -> session * list timer) (w : world) : world :=
  let '(s, armed) := h (sess w) in
  mkWorld s (timers w ++ armed)%list (inflight w) (transportLog w) (answered w).

(** The body of an expiring timer's callback. *)
Definition fire (t : timer) (w : world) : world :=
  match t with
  | AuthGrace =>
      mkWorld (authenticated_timeout (sess w)) (timers w) (inflight w)
              (transportLog w) (answered w)
  | LoadGrace =>
      mkWorld (loading_timeout (sess w)) (timers w) (inflight w)
              (transportLog w) (answered w)
  | Reinit =>
      mkWorld (sess w) (timers w) (inflight w)
              (transportLog w ++ [CallInitialize])%list (answered w)
  | Pacing chat message =>
      mkWorld (sess w) (timers w) (inflight w ++ [(chat, message)])%list
              (transportLog w ++ [CallSendMessage chat message])%list
              (answered w)
  end.

Definition respond (r : response) (w : world) : world :=
  mkWorld (sess w) (timers w) (inflight w) (transportLog w)
          (answered w ++ [r])%list.

(** One turn of the loop; [None] when the event cannot occur in [w] (a timer
    that is not armed, a send that is not pending). *)
Definition step (SECRET_KEY : option string) (w : world) (e : event)
  : option world :=
  match e with
  | Qr => Some (lifecycle on_qr w)
  | Ready => Some (lifecycle on_ready w)
  | Authenticated => Some (lifecycle on_authenticated w)
  | AuthFailure => Some (lifecycle on_auth_failure w)
  | Disconnected => Some (lifecycle on_disconnected w)
  | LoadingScreen percent => Some (lifecycle (on_loading_screen percent) w)
  | Fire t =>
      match take (timer_eqb t) (timers w) with
      | Some rest =>
          Some (fire t (mkWorld (sess w) rest (inflight w) (transportLog w)
                                (answered w)))
      | None => None
      end
  | SendSettled chat message r =>
      match take (fun p => String.eqb (fst p) chat && String.eqb (snd p) message)
                 (inflight w) with
      | Some rest =>
          let '(resp, s) := send_message_settle (sess w) chat r in
          Some (mkWorld s (timers w) rest (transportLog w)
                        (answered w ++ [resp])%list)
      | None => None
      end
  | HttpSendMessage req =>
      match validateSecretKey SECRET_KEY req with
      | Some r => Some (respond r w)
      | None =>
          match send_message_begin (sess w) req with
          | Answer r => Some (respond r w)
          | Sleep chat message =>
              Some (mkWorld (sess w) (timers w ++ [Pacing chat message])%list
                            (inflight w) (transportLog w) (answered w))
          end
      end
  | HttpStatus req q now =>
      let '(r, s, made) := get_status SECRET_KEY (sess w) req q now in
      Some (mkWorld s (timers w) (inflight w) (transportLog w ++ made)%list
                    (answered w ++ [r])%list)
  | HttpRestart req d =>
      let '(r, s, made, armed) := get_restart SECRET_KEY (sess w) req d in
      Some (mkWorld s (timers w ++ armed)%list (inflight w)
                    (transportLog w ++ made)%list (answered w ++ [r])%list)
  end.

(** A run of the loop over a sequence of events. *)
Fixpoint run (SECRET_KEY : option string) (w : world) (evs : list event)
  : option world :=
  match evs with
  | [] => Some w
  | e :: evs' =>
      match step SECRET_KEY w e with
      | Some w' => run SECRET_KEY w' evs'
      | None => None
      end
  end.

(** ** Predicates of the claims *)

(** The contract the specification states for the ready flag. *)
Definition ready_implies_live (s : session) : Prop :=
  isClientReady s = true ->
  clientState s = "AUTHENTICATED" \/ clientState s = "CONNECTED".

(** What the handlers maintain: a session that is ready may also be in
    [LOADING]. *)
Definition ready_implies_live_or_loading (s : session) : Prop :=
  isClientReady s = true ->
  clientState s = "AUTHENTICATED" \/ clientState s = "CONNECTED"
  \/ clientState s = "LOADING".

(** The condition of line 147. *)
Definition notReady (s : session) : bool :=
  negb (isClientReady s)
  || (negb (String.eqb (clientState s) "CONNECTED")
      && negb (String.eqb (clientState s) "AUTHENTICATED")).

(** The field [key] of a response body. *)
Fixpoint field (key : string) (b : list (string * json)) : option json :=
  match b with
  | [] => None
  | (k, v) :: b' => if String.eqb k key then Some v else field key b'
  end.

(** ** Predicates of the further properties *)

(** The nine literals the program ever assigns to [clientState]
    (lines 12, 60, 66, 71, 75, 84, 90, 95, 100, 187 and 239). *)
Definition assignedStates : list string :=
  ["INITIALIZING"; "QR_GENERATED"; "CONNECTED"; "AUTHENTICATED";
   "AUTH_FAILURE"; "DISCONNECTED"; "LOADING"; "ERROR"; "RESTARTING"].

(** An address and a text fit for [client.sendMessage]: the address contains
    the domain suffix and the text is not empty. *)
Definition wellAddressed (chat message : string) : bool :=
  includes chat "@c.us" && negb (String.eqb message "").

Definition callAddressed (c : call) : bool :=
  match c with
  | CallSendMessage chat message => wellAddressed chat message
  | _ => true
  end.

Definition timerAddressed (t : timer) : bool :=
  match t with
  | Pacing chat message => wellAddressed chat message
  | _ => true
  end.

(** Every send of a world, whether sleeping, pending or already made, is
    well addressed. *)
Definition worldAddressed (w : world) : bool :=
  forallb timerAddressed (timers w)
  && forallb (fun p => wellAddressed (fst p) (snd p)) (inflight w)
  && forallb callAddressed (transportLog w).

(** The lifecycle events other than [authenticated]. *)
Definition supersedesAuthentication (e : event) : bool :=
  match e with
  | Qr | Ready | AuthFailure | Disconnected | LoadingScreen _ => true
  | _ => false
  end.

(** The events the transport emits. *)
Definition lifecycleEvent (e : event) : bool :=
  match e with
  | Qr | Ready | Authenticated | AuthFailure | Disconnected
  | LoadingScreen _ => true
  | _ => false
  end.

(** The [status] field of a body is [true] exactly when the code of the
    response is 200. *)
Definition statusAgrees (r : response) : Prop :=
  field "status" (body r) = Some (JBool (httpStatus r =? 200)).

(** * Properties *)

(** ** Strings *)

Lemma length_app (a b : string) :
  String.length (a ++ b) = String.length a + String.length b.
Proof. induction a as [|c a IH]; simpl; [reflexivity | now rewrite IH]. Qed.

Lemma app_empty_r (a : string) : a ++ "" = a.
Proof. induction a as [|c a IH]; simpl; [reflexivity | now rewrite IH]. Qed.

Lemma prefix_refl (s : string) : String.prefix s s = true.
Proof.
  induction s as [|c s IH]; simpl; [reflexivity|].
  destruct (ascii_dec c c) as [_|ne]; [exact IH | now elim ne].
Qed.

Lemma prefix_empty (s : string) : String.prefix "" s = true.
Proof. now destruct s. Qed.

Lemma stripNonDigits_app (a b : string) :
  stripNonDigits (a ++ b) = stripNonDigits a ++ stripNonDigits b.
Proof.
  induction a as [|c a IH]; simpl; [reflexivity|].
  destruct (isDigit c); simpl; now rewrite IH.
Qed.

Lemma stripNonDigits_allDigits (s : string) :
  allDigits (stripNonDigits s) = true.
Proof.
  induction s as [|c s IH]; simpl; [reflexivity|].
  destruct (isDigit c) eqn:E; simpl; [now rewrite E | exact IH].
Qed.

Lemma stripNonDigits_fixed (d : string) :
  allDigits d = true -> stripNonDigits d = d.
Proof.
  induction d as [|c d IH]; simpl; [reflexivity|].
  intros H. apply andb_prop in H as [Hc Hd].
  rewrite Hc. now rewrite (IH Hd).
Qed.

Lemma allDigits_app (a b : string) :
  allDigits (a ++ b) = allDigits a && allDigits b.
Proof.
  induction a as [|c a IH]; simpl; [reflexivity|].
  now rewrite IH, andb_assoc.
Qed.

Lemma allDigits_substring1 (d : string) :
  allDigits d = true -> allDigits (substring1 d) = true.
Proof.
  destruct d as [|c d]; simpl; [reflexivity|].
  intros H. now apply andb_prop in H.
Qed.

Lemma includes_app_r (a b : string) : includes (a ++ b) b = true.
Proof.
  induction a as [|c a IH].
  - change ("" ++ b) with b.
    destruct b as [|c b]; [reflexivity|].
    cbn [includes]. now rewrite prefix_refl.
  - cbn [append includes]. rewrite IH. apply orb_true_r.
Qed.

Lemma endsWith_app_r (a b : string) : endsWith (a ++ b) b = true.
Proof.
  induction a as [|c a IH].
  - change ("" ++ b) with b.
    destruct b as [|c b]; [reflexivity|].
    cbn [endsWith]. now rewrite String.eqb_refl.
  - cbn [append endsWith]. rewrite IH. apply orb_true_r.
Qed.

Lemma startsWith_62 (d : string) : startsWith ("62" ++ d) "62" = true.
Proof. unfold startsWith. simpl. apply prefix_empty. Qed.

Lemma length_substring1 (d : string) :
  startsWith d "0" = true ->
  S (String.length (substring1 d)) = String.length d.
Proof. destruct d; simpl; [discriminate | reflexivity]. Qed.

(** ** The normaliser *)

Example format_punctuated :
  formatPhoneNumber "+62 812-3456-7890" = "6281234567890@c.us".
Proof. reflexivity. Qed.

Example format_prepends_prefix :
  formatPhoneNumber "81234567890" = "6281234567890@c.us".
Proof. reflexivity. Qed.

Example format_keeps_ten_digits :
  formatPhoneNumber "8123456789" = "8123456789@c.us".
Proof. reflexivity. Qed.

Example number_123_invalid : isValidPhoneNumber "123" = false.
Proof. reflexivity. Qed.

(** The value of the local [cleanNumber] when [formatPhoneNumber] returns is
    all digits, so stripping the result gives it back. *)
Lemma formatPhoneNumber_digits (raw : string) :
  formatPhoneNumber raw
  = canonicalDigits_spec (stripNonDigits raw) ++ "@c.us"
  /\ allDigits (canonicalDigits_spec (stripNonDigits raw)) = true.
Proof.
  unfold formatPhoneNumber, canonicalDigits_spec.
  pose proof (stripNonDigits_allDigits raw) as Hd.
  set (d := stripNonDigits raw) in *.
  destruct (startsWith d "0") eqn:E0.
  - rewrite startsWith_62. split; [reflexivity|].
    change ("62" ++ substring1 d) with (String "6" (String "2" (substring1 d))).
    cbn [allDigits]. rewrite (allDigits_substring1 d Hd). reflexivity.
  - destruct (negb (startsWith d "62") && (10 <? String.length d)).
    + split; [reflexivity|].
      change ("62" ++ d) with (String "6" (String "2" d)).
      cbn [allDigits]. rewrite Hd. reflexivity.
    + split; [reflexivity | exact Hd].
Qed.

Lemma stripNonDigits_formatPhoneNumber (raw : string) :
  stripNonDigits (formatPhoneNumber raw)
  = canonicalDigits_spec (stripNonDigits raw).
Proof.
  destruct (formatPhoneNumber_digits raw) as [-> Hd].
  rewrite stripNonDigits_app, (stripNonDigits_fixed _ Hd).
  change (stripNonDigits "@c.us") with "".
  apply app_empty_r.
Qed.

(** How many digits the canonical address has, by the shape of the stripped
    input. *)
Lemma canonicalDigits_length (d : string) :
  String.length (canonicalDigits_spec d)
  = String.length d
    + (if startsWith d "0" then 1
       else if negb (startsWith d "62") && (10 <? String.length d) then 2
       else 0).
Proof.
  unfold canonicalDigits_spec.
  destruct (startsWith d "0") eqn:E0.
  - rewrite length_app. pose proof (length_substring1 d E0). simpl. lia.
  - destruct (negb (startsWith d "62") && (10 <? String.length d)).
    + rewrite length_app. simpl. lia.
    + lia.
Qed.

Lemma includes_formatPhoneNumber (raw : string) :
  includes (formatPhoneNumber raw) "@c.us" = true.
Proof.
  destruct (formatPhoneNumber_digits raw) as [-> _]. apply includes_app_r.
Qed.

(** The address computed on line 154 is a fixed point of that computation,
    whatever the input. *)
Lemma chatId_idempotent (raw : string) : chatId (chatId raw) = chatId raw.
Proof.
  unfold chatId at 2 3.
  destruct (includes raw "@c.us") eqn:E.
  - unfold chatId. now rewrite E.
  - unfold chatId. now rewrite includes_formatPhoneNumber.
Qed.

(** C6: [formatPhoneNumber] strips the non-digits, replaces a leading [0] by
    [62], otherwise prepends [62] when the digits do not start with [62] and
    are more than ten, keeps the digits otherwise, and appends [@c.us]: the
    two consecutive [if]s of the source compute what the specification words
    as an if/else chain.  On ["081234567890"] the result is
    ["6281234567890@c.us"]. *)
Theorem formatPhoneNumber_refines_spec :
  (forall raw : string,
      formatPhoneNumber raw
      = canonicalDigits_spec (stripNonDigits raw) ++ "@c.us")
  /\ formatPhoneNumber "081234567890" = "6281234567890" ++ "@c.us"
  /\ chatId "081234567890" = "6281234567890@c.us".
Proof.
  split; [intros raw; apply formatPhoneNumber_digits|].
  split; reflexivity.
Qed.

(** C7 (as stated, refuted): ["081234567890"] is digit-valid (12 digits) and
    carries no suffix, yet the digit portion of its canonical address has 13
    digits: neither 12 + 0 nor 12 + 2. *)
Lemma canonical_length_plus_one :
  isValidPhoneNumber "081234567890" = true
  /\ includes "081234567890" "@c.us" = false
  /\ String.length (stripNonDigits "081234567890") = 12
  /\ String.length (stripNonDigits (chatId "081234567890")) = 13
  /\ ~ (String.length (stripNonDigits (chatId "081234567890"))
        = String.length (stripNonDigits "081234567890") + 0
        \/ String.length (stripNonDigits (chatId "081234567890"))
           = String.length (stripNonDigits "081234567890") + 2).
Proof.
  repeat split; try reflexivity.
  vm_compute. intros [H|H]; discriminate H.
Qed.

(** C7 (amended): for a digit-valid input without the suffix, the canonical
    address is its digit portion followed by [@c.us], and the digit portion
    has the input's digit count plus 0, plus 1 (a leading [0] replaced by
    [62]) or plus 2 ([62] prepended). *)
Theorem chatId_digits_length (raw : string) :
  isValidPhoneNumber raw = true ->
  includes raw "@c.us" = false ->
  chatId raw = stripNonDigits (chatId raw) ++ "@c.us"
  /\ endsWith (chatId raw) "@c.us" = true
  /\ (String.length (stripNonDigits (chatId raw))
        = String.length (stripNonDigits raw) + 0
      \/ String.length (stripNonDigits (chatId raw))
        = String.length (stripNonDigits raw) + 1
      \/ String.length (stripNonDigits (chatId raw))
        = String.length (stripNonDigits raw) + 2)
  /\ (startsWith (stripNonDigits raw) "0" = true ->
      String.length (stripNonDigits (chatId raw))
      = String.length (stripNonDigits raw) + 1).
Proof.
  intros _ Hsuffix. unfold chatId. rewrite Hsuffix.
  rewrite stripNonDigits_formatPhoneNumber.
  destruct (formatPhoneNumber_digits raw) as [Hfmt _].
  rewrite canonicalDigits_length.
  repeat split.
  - exact Hfmt.
  - rewrite Hfmt. apply endsWith_app_r.
  - destruct (startsWith (stripNonDigits raw) "0"); [auto|].
    destruct (negb _ && _); auto.
  - now intros ->.
Qed.

Lemma chatId_digits_length_witness :
  chatId "081234567890" = stripNonDigits (chatId "081234567890") ++ "@c.us"
  /\ String.length (stripNonDigits (chatId "081234567890"))
     = String.length (stripNonDigits "081234567890") + 1.
Proof.
  destruct (chatId_digits_length "081234567890" eq_refl eq_refl)
    as (Haddr & _ & _ & Hlen).
  split; [exact Haddr | apply Hlen; reflexivity].
Defined.

(** C9: an input that carries [@c.us] is the dispatch address as it is, and
    computing the address of an address gives that address again. *)
Theorem chatId_passthrough_idempotent (raw : string) :
  includes raw "@c.us" = true ->
  chatId raw = raw /\ chatId (chatId raw) = chatId raw.
Proof.
  intros H. split; [|apply chatId_idempotent].
  unfold chatId. now rewrite H.
Qed.

(** The digit-count test of line 140 is a separate step: the address of a
    valid fifteen-digit number has seventeen digits. *)
Example address_of_fifteen_digits :
  isValidPhoneNumber "123456789012345" = true
  /\ chatId "123456789012345" = "62123456789012345@c.us"
  /\ isValidPhoneNumber (chatId "123456789012345") = false.
Proof. repeat split. Qed.

Lemma chatId_passthrough_idempotent_witness :
  chatId "6281234567890@c.us" = "6281234567890@c.us"
  /\ chatId (chatId "6281234567890@c.us") = chatId "6281234567890@c.us".
Proof. apply (chatId_passthrough_idempotent "6281234567890@c.us"). reflexivity. Defined.

(** ** The readiness gate and the validation of POST /send-message *)

Lemma notReady_true (s : session) :
  notReady s = true <->
  isClientReady s = false
  \/ (clientState s <> "CONNECTED" /\ clientState s <> "AUTHENTICATED").
Proof.
  unfold notReady.
  rewrite orb_true_iff, andb_true_iff, !negb_true_iff, !String.eqb_neq.
  tauto.
Qed.

Lemma notReady_false (s : session) :
  notReady s = false <->
  isClientReady s = true
  /\ (clientState s = "CONNECTED" \/ clientState s = "AUTHENTICATED").
Proof.
  unfold notReady.
  rewrite orb_false_iff, andb_false_iff, !negb_false_iff, !String.eqb_eq.
  tauto.
Qed.

Lemma valid_number_truthy (number : string) :
  isValidPhoneNumber number = true -> truthy (Some number) = true.
Proof. destruct number; [discriminate | reflexivity]. Qed.

Lemma nonempty_truthy (text : string) :
  text <> "" -> truthy (Some text) = true.
Proof. intros H. simpl. now apply negb_true_iff, String.eqb_neq. Qed.

Lemma isValidPhoneNumber_false (number : string) :
  isValidPhoneNumber number = false <->
  String.length (stripNonDigits number) < 10
  \/ 15 < String.length (stripNonDigits number).
Proof.
  unfold isValidPhoneNumber. cbv zeta.
  rewrite andb_false_iff, !Nat.leb_gt. tauto.
Qed.

(** The handler, once both parameters are present and non-empty. *)
Lemma send_message_begin_present (s : session) (req : request)
      (number message : string) :
  body_number req = Some number ->
  body_message req = Some message ->
  truthy (Some number) = true ->
  truthy (Some message) = true ->
  send_message_begin s req =
    if negb (isValidPhoneNumber number) then
      Answer (mkResponse 400
                [("status", JBool false);
                 ("message", JString "Format nomor telepon tidak valid")])
    else if notReady s then
      Answer (mkResponse 503
                [("status", JBool false);
                 ("message",
                  JString ("WhatsApp client tidak ready. Status: "
                           ++ clientState s
                           ++ ". Tunggu beberapa saat lagi."))])
    else Sleep (chatId number) message.
Proof.
  intros Hn Hm Tn Tm. unfold send_message_begin, notReady.
  rewrite Hn, Hm, Tn, Tm. reflexivity.
Qed.

(** C1: a request that passes the middleware, carries both parameters and a
    valid number is answered 503 when the ready flag is false or the state is
    neither [CONNECTED] nor [AUTHENTICATED]; the session is left as it was,
    no call reaches the transport, and in the event loop the request arms no
    timer: the world only gains the response. *)
Theorem readiness_gate_rejects
    (SECRET_KEY : option string) (s : session) (req : request)
    (number message : string) (transport : string -> string -> send_result) :
  validateSecretKey SECRET_KEY req = None ->
  body_number req = Some number ->
  body_message req = Some message ->
  message <> "" ->
  isValidPhoneNumber number = true ->
  (isClientReady s = false
   \/ (clientState s <> "CONNECTED" /\ clientState s <> "AUTHENTICATED")) ->
  exists r : response,
    httpStatus r = 503
    /\ post_send_message SECRET_KEY s req transport = (r, s, [])
    /\ forall w : world,
         sess w = s ->
         step SECRET_KEY w (HttpSendMessage req) = Some (respond r w).
Proof.
  intros Hauth Hn Hm Hne Hvalid Hgate.
  apply notReady_true in Hgate.
  pose proof (send_message_begin_present s req number message Hn Hm
                (valid_number_truthy _ Hvalid) (nonempty_truthy _ Hne)) as Hb.
  rewrite Hvalid, Hgate in Hb. cbn [negb] in Hb.
  eexists. split; [|split].
  2:{ unfold post_send_message, send_message_handler.
      rewrite Hauth, Hb. reflexivity. }
  - reflexivity.
  - intros w <-. cbn [step]. rewrite Hauth, Hb. reflexivity.
Qed.

Lemma readiness_gate_rejects_witness :
  exists r : response,
    httpStatus r = 503
    /\ post_send_message (Some "s3cret") (mkSession false "DISCONNECTED")
         (mkRequest (Some "s3cret") None (Some "081234567890") (Some "halo"))
         (fun _ _ => Delivered "true_6281234567890@c.us_3EB0")
       = (r, mkSession false "DISCONNECTED", [])
    /\ forall w : world,
         sess w = mkSession false "DISCONNECTED" ->
         step (Some "s3cret") w
              (HttpSendMessage
                 (mkRequest (Some "s3cret") None (Some "081234567890")
                            (Some "halo")))
         = Some (respond r w).
Proof.
  apply (readiness_gate_rejects (Some "s3cret")
           (mkSession false "DISCONNECTED")
           (mkRequest (Some "s3cret") None (Some "081234567890") (Some "halo"))
           "081234567890" "halo").
  - reflexivity.
  - reflexivity.
  - reflexivity.
  - discriminate.
  - reflexivity.
  - left. reflexivity.
Defined.

(** C8: a number whose digit count is below 10 or above 15 is answered 400 by
    the handler, whatever the session and the message; the session is left as
    it was and no call reaches the transport.  Through the route the answer
    is that 400 when the middleware lets the request pass, and no call
    reaches the transport either way.  ["123"] is such a number. *)
Theorem invalid_number_rejected
    (SECRET_KEY : option string) (s : session) (req : request)
    (number : string) (transport : string -> string -> send_result) :
  body_number req = Some number ->
  (String.length (stripNonDigits number) < 10
   \/ 15 < String.length (stripNonDigits number)) ->
  (exists r : response,
      httpStatus r = 400
      /\ send_message_handler s req transport = (r, s, [])
      /\ (validateSecretKey SECRET_KEY req = None ->
          post_send_message SECRET_KEY s req transport = (r, s, [])))
  /\ snd (post_send_message SECRET_KEY s req transport) = []
  /\ snd (fst (post_send_message SECRET_KEY s req transport)) = s.
Proof.
  intros Hn Hdigits. apply isValidPhoneNumber_false in Hdigits.
  assert (exists r, httpStatus r = 400 /\ send_message_begin s req = Answer r)
    as (r & Hr & Hb).
  { unfold send_message_begin. rewrite Hn.
    destruct (body_message req) as [message|];
      [|eexists; split; [|reflexivity]; reflexivity].
    destruct (negb (truthy (Some number)) || negb (truthy (Some message)));
      [eexists; split; [|reflexivity]; reflexivity|].
    rewrite Hdigits. eexists; split; [|reflexivity]; reflexivity. }
  assert (send_message_handler s req transport = (r, s, [])) as Hh.
  { unfold send_message_handler. now rewrite Hb. }
  split; [exists r; repeat split; auto|].
  - intros Hauth. unfold post_send_message. now rewrite Hauth.
  - unfold post_send_message.
    destruct (validateSecretKey SECRET_KEY req); [split; reflexivity|].
    rewrite Hh. split; reflexivity.
Qed.

Lemma invalid_number_rejected_witness :
  (exists r : response,
      httpStatus r = 400
      /\ send_message_handler (mkSession true "CONNECTED")
           (mkRequest (Some "s3cret") None (Some "123") (Some "halo"))
           (fun _ _ => Delivered "id")
         = (r, mkSession true "CONNECTED", [])
      /\ (validateSecretKey (Some "s3cret")
            (mkRequest (Some "s3cret") None (Some "123") (Some "halo")) = None ->
          post_send_message (Some "s3cret") (mkSession true "CONNECTED")
            (mkRequest (Some "s3cret") None (Some "123") (Some "halo"))
            (fun _ _ => Delivered "id")
          = (r, mkSession true "CONNECTED", [])))
  /\ validateSecretKey (Some "s3cret")
       (mkRequest (Some "s3cret") None (Some "123") (Some "halo")) = None.
Proof.
  split; [|reflexivity].
  apply (invalid_number_rejected (Some "s3cret") (mkSession true "CONNECTED")
           (mkRequest (Some "s3cret") None (Some "123") (Some "halo"))
           "123" (fun _ _ => Delivered "id")).
  - reflexivity.
  - left. simpl. lia.
Defined.

(** C10: when the number contains [@c.us] anywhere and has 10 to 15 digits
    in all, every dispatch the handler starts is addressed to the raw string
    itself; and when the request passes the middleware, carries a message
    and meets an open gate, the one call made on the transport is
    [sendMessage(number, message)] with that raw string. *)
Theorem suffixed_number_dispatched_verbatim
    (SECRET_KEY : option string) (s : session) (req : request)
    (number : string) (transport : string -> string -> send_result) :
  body_number req = Some number ->
  includes number "@c.us" = true ->
  isValidPhoneNumber number = true ->
  (forall chat message : string,
      send_message_begin s req = Sleep chat message -> chat = number)
  /\ (forall message : string,
        validateSecretKey SECRET_KEY req = None ->
        body_message req = Some message ->
        message <> "" ->
        isClientReady s = true ->
        (clientState s = "CONNECTED" \/ clientState s = "AUTHENTICATED") ->
        send_message_begin s req = Sleep number message
        /\ snd (post_send_message SECRET_KEY s req transport)
           = [CallSendMessage number message]).
Proof.
  intros Hn Hinc Hvalid.
  assert (chatId number = number) as Hid by (unfold chatId; now rewrite Hinc).
  split.
  - intros chat message. unfold send_message_begin. rewrite Hn.
    destruct (body_message req) as [m|]; [|discriminate].
    destruct (negb (truthy (Some number)) || negb (truthy (Some m)));
      [discriminate|].
    destruct (negb (isValidPhoneNumber number)); [discriminate|].
    destruct (negb (isClientReady s) || _); [discriminate|].
    rewrite Hid. now intros [= <- _].
  - intros message Hauth Hm Hne Hready Hstate.
    pose proof (send_message_begin_present s req number message Hn Hm
                  (valid_number_truthy _ Hvalid) (nonempty_truthy _ Hne)) as Hb.
    rewrite Hvalid, (proj2 (notReady_false s) (conj Hready Hstate)), Hid in Hb.
    cbn [negb] in Hb. split; [exact Hb|].
    unfold post_send_message, send_message_handler. rewrite Hauth, Hb.
    now destruct (send_message_settle s number (transport number message)).
Qed.

Lemma suffixed_number_dispatched_verbatim_witness :
  send_message_begin (mkSession true "CONNECTED")
    (mkRequest (Some "s3cret") None (Some "0812@c.us34567890") (Some "halo"))
  = Sleep "0812@c.us34567890" "halo"
  /\ snd (post_send_message (Some "s3cret") (mkSession true "CONNECTED")
            (mkRequest (Some "s3cret") None (Some "0812@c.us34567890")
                       (Some "halo"))
            (fun _ _ => Delivered "id"))
     = [CallSendMessage "0812@c.us34567890" "halo"].
Proof.
  apply (suffixed_number_dispatched_verbatim (Some "s3cret")
           (mkSession true "CONNECTED")
           (mkRequest (Some "s3cret") None (Some "0812@c.us34567890")
                      (Some "halo"))
           "0812@c.us34567890" (fun _ _ => Delivered "id")
           eq_refl eq_refl eq_refl).
  - reflexivity.
  - reflexivity.
  - discriminate.
  - reflexivity.
  - left. reflexivity.
Defined.

(** ** Classification of a failed send *)

(** C4 (as stated, refuted): a failure message that contains
    ["Evaluation failed"] and also ["Chat not found"] is answered 404 by the
    earlier test of line 171, and the session is left ready and
    [CONNECTED]. *)
Lemma evaluation_failed_shadowed :
  includes "Evaluation failed: Error: Chat not found" "Evaluation failed" = true
  /\ httpStatus
       (fst (send_message_settle (mkSession true "CONNECTED")
               "6281234567890@c.us"
               (Rejected "Evaluation failed: Error: Chat not found")))
     = 404
  /\ snd (send_message_settle (mkSession true "CONNECTED")
            "6281234567890@c.us"
            (Rejected "Evaluation failed: Error: Chat not found"))
     = mkSession true "CONNECTED".
Proof. repeat split; reflexivity. Qed.

(** C4 (amended): a send that fails with a message containing
    ["Evaluation failed"] and neither ["Chat not found"] nor
    ["phone number is not registered"] is answered 503, and the session
    becomes not ready in state [ERROR], so that the gate answers 503 to the
    next request. *)
Theorem evaluation_failed_forces_error
    (s : session) (chat errorMessage : string) :
  includes errorMessage "Evaluation failed" = true ->
  includes errorMessage "Chat not found" = false ->
  includes errorMessage "phone number is not registered" = false ->
  httpStatus (fst (send_message_settle s chat (Rejected errorMessage))) = 503
  /\ snd (send_message_settle s chat (Rejected errorMessage))
     = mkSession false "ERROR"
  /\ isClientReady (snd (send_message_settle s chat (Rejected errorMessage)))
     = false
  /\ clientState (snd (send_message_settle s chat (Rejected errorMessage)))
     = "ERROR"
  /\ notReady (snd (send_message_settle s chat (Rejected errorMessage)))
     = true.
Proof.
  intros He Hc Hp. unfold send_message_settle. rewrite Hc, Hp, He.
  repeat split.
Qed.

Lemma evaluation_failed_forces_error_witness :
  httpStatus
    (fst (send_message_settle (mkSession true "CONNECTED")
            "6281234567890@c.us"
            (Rejected "Evaluation failed: Target closed"))) = 503
  /\ snd (send_message_settle (mkSession true "CONNECTED")
            "6281234567890@c.us"
            (Rejected "Evaluation failed: Target closed"))
     = mkSession false "ERROR".
Proof.
  destruct (evaluation_failed_forces_error (mkSession true "CONNECTED")
              "6281234567890@c.us" "Evaluation failed: Target closed"
              eq_refl eq_refl eq_refl) as (H503 & Hs & _).
  split; [exact H503 | exact Hs].
Defined.

(** ** GET /status *)

(** C5 (as stated, refuted): with the session ready and [CONNECTED], a state
    query that fails makes the status handler clear the ready flag, and the
    response reports [ERROR], not the last-known state [CONNECTED]. *)
Lemma status_failure_clears_ready :
  isClientReady
    (snd (fst (status_handler (mkSession true "CONNECTED") StateFails
                              "2024-01-01T00:00:00.000Z")))
  = false
  /\ field "clientState"
       (body (fst (fst (status_handler (mkSession true "CONNECTED") StateFails
                                       "2024-01-01T00:00:00.000Z"))))
     = Some (JString "ERROR")
  /\ snd (fst (status_handler (mkSession true "CONNECTED") StateFails
                              "2024-01-01T00:00:00.000Z"))
     <> mkSession true "CONNECTED".
Proof. repeat split; try reflexivity. discriminate. Qed.

(** C5 (amended): the status handler answers 200 and never changes
    [clientState].  When the ready flag is false it makes no query, leaves
    the session as it is and reports the last-known state.  When the flag is
    true it queries the transport: on an answer it reports that state and
    leaves the session as it is; on a failure it reports [ERROR] with
    [clientReady] false and clears the ready flag. *)
Theorem status_handler_effect (s : session) (q : state_answer) (now : string) :
  let '(r, s', made) := status_handler s q now in
  httpStatus r = 200
  /\ clientState s' = clientState s
  /\ field "clientReady" (body r) = Some (JBool (isClientReady s'))
  /\ (isClientReady s = false ->
      s' = s /\ made = []
      /\ field "clientState" (body r) = Some (JString (clientState s)))
  /\ (isClientReady s = true ->
      made = [CallGetState]
      /\ match q with
         | StateIs state =>
             s' = s /\ field "clientState" (body r) = Some (JString state)
         | StateFails =>
             s' = mkSession false (clientState s)
             /\ field "clientState" (body r) = Some (JString "ERROR")
         end).
Proof.
  unfold status_handler. destruct s as [ready state].
  destruct ready; [destruct q|]; cbn; repeat split; try discriminate;
    try reflexivity.
Qed.

Lemma status_handler_effect_witness :
  snd (fst (status_handler (mkSession true "CONNECTED") StateFails "t"))
  = mkSession false "CONNECTED"
  /\ snd (fst (status_handler (mkSession false "QR_GENERATED")
                              (StateIs "CONNECTED") "t"))
     = mkSession false "QR_GENERATED".
Proof.
  split.
  - pose proof (status_handler_effect (mkSession true "CONNECTED")
                  StateFails "t") as H.
    cbn in H. destruct H as (_ & _ & _ & _ & H). 
    destruct (H eq_refl) as (_ & Hs & _). exact Hs.
  - pose proof (status_handler_effect (mkSession false "QR_GENERATED")
                  (StateIs "CONNECTED") "t") as H.
    cbn in H. destruct H as (_ & _ & _ & H & _).
    destruct (H eq_refl) as (Hs & _). exact Hs.
Defined.

(** ** Grace timers and the ready-flag invariant *)

(** The 5000 ms callback does nothing unless the state is [AUTHENTICATED]. *)
Lemma authenticated_timeout_stale (s : session) :
  clientState s <> "AUTHENTICATED" -> authenticated_timeout s = s.
Proof.
  intros H. unfold authenticated_timeout.
  now rewrite (proj2 (String.eqb_neq _ _) H).
Qed.

(** The 3000 ms callback promotes every session whose ready flag is false,
    whatever its state. *)
Lemma loading_timeout_not_ready (s : session) :
  isClientReady s = false -> loading_timeout s = mkSession true "CONNECTED".
Proof. intros H. unfold loading_timeout. now rewrite H. Qed.

(** C2: the 5000 ms timer that fires on a session just disconnected leaves it
    as it is, but the 3000 ms timer does not: it tests the ready flag, which
    the disconnection has cleared, and promotes the session.  From the
    initial world, loading-progress 100, then a disconnection, then the
    expiry of the loading timer end with the session ready and [CONNECTED];
    the same run with the authentication timer ends [DISCONNECTED]. *)
Theorem loading_grace_promotes_after_disconnect (SECRET_KEY : option string) :
  (forall s : session,
      authenticated_timeout (fst (on_disconnected s))
      = mkSession false "DISCONNECTED"
      /\ loading_timeout (fst (on_disconnected s))
         = mkSession true "CONNECTED")
  /\ option_map sess
       (run SECRET_KEY initialWorld [LoadingScreen 100; Disconnected])
     = Some (mkSession false "DISCONNECTED")
  /\ option_map sess
       (run SECRET_KEY initialWorld
            [LoadingScreen 100; Disconnected; Fire LoadGrace])
     = Some (mkSession true "CONNECTED")
  /\ option_map sess
       (run SECRET_KEY initialWorld
            [Authenticated; Disconnected; Fire AuthGrace])
     = Some (mkSession false "DISCONNECTED").
Proof. repeat split. Qed.

(** C3 (as stated, refuted): a loading-progress event that follows the ready
    event, or the promotion by the authentication timer, leaves the flag
    true in state [LOADING]. *)
Lemma ready_then_loading_breaks_contract :
  option_map sess (run None initialWorld [Ready; LoadingScreen 50])
  = Some (mkSession true "LOADING")
  /\ option_map sess
       (run None initialWorld [Authenticated; Fire AuthGrace; LoadingScreen 50])
     = Some (mkSession true "LOADING")
  /\ ~ ready_implies_live (mkSession true "LOADING").
Proof.
  split; [reflexivity|]. split; [reflexivity|].
  intros H. destruct (H eq_refl) as [E|E]; discriminate E.
Qed.

Lemma send_message_settle_ready (s : session) (chat : string) (r : send_result) :
  snd (send_message_settle s chat r) = s
  \/ snd (send_message_settle s chat r) = mkSession false "ERROR".
Proof.
  unfold send_message_settle. destruct r as [id|msg]; [now left|].
  destruct (includes msg "Chat not found"); [now left|].
  destruct (includes msg "phone number is not registered"); [now left|].
  destruct (includes msg "Evaluation failed"); [now right | now left].
Qed.

Lemma status_handler_ready (s : session) (q : state_answer) (now : string) :
  snd (fst (status_handler s q now)) = s
  \/ snd (fst (status_handler s q now)) = mkSession false (clientState s).
Proof.
  unfold status_handler. destruct (isClientReady s); [destruct q|];
    cbn; auto.
Qed.

(** Through the route as well, a status request leaves [clientState] alone. *)
Lemma get_status_keeps_clientState
    (SECRET_KEY : option string) (s : session) (req : request)
    (q : state_answer) (now : string) :
  clientState (snd (fst (get_status SECRET_KEY s req q now))) = clientState s.
Proof.
  unfold get_status. destruct (validateSecretKey SECRET_KEY req);
    [reflexivity|].
  destruct (status_handler_ready s q now) as [-> | ->]; reflexivity.
Qed.

(** How one turn of the loop changes the session: by a lifecycle handler, a
    grace callback, the failure branch of a send, the failure branch of the
    status query, the restart, or not at all. *)
Lemma step_session (SECRET_KEY : option string) (w w' : world) (e : event) :
  step SECRET_KEY w e = Some w' ->
  sess w' = sess w
  \/ isClientReady (sess w') = false
  \/ sess w' = mkSession true "CONNECTED"
  \/ (sess w' = mkSession (isClientReady (sess w)) "AUTHENTICATED"
      /\ e = Authenticated)
  \/ (sess w' = mkSession (isClientReady (sess w)) "LOADING"
      /\ exists percent, e = LoadingScreen percent).
Proof.
  destruct e; cbn [step].
  - intros [= <-]. right; left. reflexivity.
  - intros [= <-]. right; right; left. reflexivity.
  - intros [= <-]. right; right; right; left. split; reflexivity.
  - intros [= <-]. right; left. reflexivity.
  - intros [= <-]. right; left. reflexivity.
  - intros [= <-]. right; right; right; right. split; [reflexivity|].
    now exists percent.
  - destruct (take (timer_eqb t) (timers w)) as [rest|]; [|discriminate].
    intros [= <-]. destruct t; cbn.
    + unfold authenticated_timeout.
      destruct (String.eqb (clientState (sess w)) "AUTHENTICATED"); auto.
    + unfold loading_timeout. destruct (negb (isClientReady (sess w))); auto.
    + auto.
    + auto.
  - destruct (take _ (inflight w)) as [rest|]; [|discriminate].
    pose proof (send_message_settle_ready (sess w) chat r) as H.
    destruct (send_message_settle (sess w) chat r) as [resp s].
    intros [= <-]. cbn in *. destruct H as [->| ->]; auto.
  - destruct (validateSecretKey SECRET_KEY req); [intros [= <-]; auto|].
    destruct (send_message_begin (sess w) req); intros [= <-]; auto.
  - unfold get_status.
    destruct (validateSecretKey SECRET_KEY req); [intros [= <-]; auto|].
    pose proof (status_handler_ready (sess w) q now) as H.
    destruct (status_handler (sess w) q now) as [[resp s] made].
    intros [= <-]. cbn in *. destruct H as [->| ->]; auto.
  - unfold get_restart.
    destruct (validateSecretKey SECRET_KEY req); [intros [= <-]; auto|].
    unfold restart_handler. destruct d; intros [= <-]; auto.
Qed.

Lemma run_invariant (SECRET_KEY : option string) (P : session -> Prop) :
  (forall w e w', step SECRET_KEY w e = Some w' -> P (sess w) -> P (sess w')) ->
  forall evs w w',
    run SECRET_KEY w evs = Some w' -> P (sess w) -> P (sess w').
Proof.
  intros Hstep. induction evs as [|e evs IH]; intros w w'; cbn [run].
  - now intros [= <-].
  - destruct (step SECRET_KEY w e) as [w1|] eqn:E; [|discriminate].
    intros Hrun Hw. apply (IH w1 w' Hrun). exact (Hstep w e w1 E Hw).
Qed.

(** C3 (amended): in every world reached from the initial one by lifecycle
    events, timer expiries, settled sends and requests, a true ready flag
    implies a state among [AUTHENTICATED], [CONNECTED] and [LOADING]; every
    turn of the loop preserves this; and every turn other than a
    loading-progress event preserves the implication with [AUTHENTICATED]
    and [CONNECTED] only. *)
Theorem ready_flag_invariant (SECRET_KEY : option string) :
  (forall evs w,
      run SECRET_KEY initialWorld evs = Some w ->
      ready_implies_live_or_loading (sess w))
  /\ (forall w e w',
        step SECRET_KEY w e = Some w' ->
        ready_implies_live_or_loading (sess w) ->
        ready_implies_live_or_loading (sess w'))
  /\ (forall w e w',
        step SECRET_KEY w e = Some w' ->
        (forall percent, e <> LoadingScreen percent) ->
        ready_implies_live (sess w) ->
        ready_implies_live (sess w')).
Proof.
  assert (forall w e w',
             step SECRET_KEY w e = Some w' ->
             ready_implies_live_or_loading (sess w) ->
             ready_implies_live_or_loading (sess w')) as Hstep.
  { intros w e w' Hs Hw. unfold ready_implies_live_or_loading in *.
    destruct (step_session SECRET_KEY w w' e Hs)
      as [-> | [Hf | [-> | [[-> _] | [-> _]]]]]; cbn; auto.
    rewrite Hf. discriminate. }
  split; [|split].
  - intros evs w Hrun.
    apply (run_invariant SECRET_KEY _ Hstep evs initialWorld w Hrun).
    discriminate.
  - exact Hstep.
  - intros w e w' Hs Hne Hw. unfold ready_implies_live in *.
    destruct (step_session SECRET_KEY w w' e Hs)
      as [-> | [Hf | [-> | [[-> _] | [_ [percent ->]]]]]]; cbn; auto.
    + rewrite Hf. discriminate.
    + now elim (Hne percent).
Qed.

Lemma ready_flag_invariant_witness :
  ready_implies_live_or_loading (mkSession true "LOADING")
  /\ ready_implies_live (mkSession true "AUTHENTICATED").
Proof.
  split.
  - apply (proj1 (ready_flag_invariant None) [Ready; LoadingScreen 50]
             (mkWorld (mkSession true "LOADING") [] [] [CallInitialize] [])).
    reflexivity.
  - apply (proj2 (proj2 (ready_flag_invariant None))
             (mkWorld (mkSession true "CONNECTED") [] [] [CallInitialize] [])
             Authenticated
             (mkWorld (mkSession true "AUTHENTICATED") [AuthGrace] []
                      [CallInitialize] [])).
    + reflexivity.
    + discriminate.
    + intros _. right. reflexivity.
Defined.

(** ** The handler inside the event loop *)

Lemma timer_eqb_refl (t : timer) : timer_eqb t t = true.
Proof. destruct t; cbn; now rewrite ?String.eqb_refl. Qed.

Lemma take_app_hit {A : Type} (p : A -> bool) (l : list A) (x : A) :
  p x = true -> exists rest, take p (l ++ [x])%list = Some rest.
Proof.
  intros Hx. induction l as [|y l [rest IH]]; cbn.
  - rewrite Hx. now exists [].
  - destruct (p y); [now exists (l ++ [x])%list|].
    rewrite IH. now exists (y :: rest).
Qed.

(** A request that passes the gate, the expiry of its pacing timer and the
    settling of its send, taken in a row, leave the session that
    [send_message_handler] computes, and the log gains the one call. *)
Lemma send_message_handler_in_loop
    (SECRET_KEY : option string) (w : world) (req : request)
    (chat message : string) (transport : string -> string -> send_result) :
  validateSecretKey SECRET_KEY req = None ->
  send_message_begin (sess w) req = Sleep chat message ->
  exists w',
    run SECRET_KEY w
        [HttpSendMessage req; Fire (Pacing chat message);
         SendSettled chat message (transport chat message)]
    = Some w'
    /\ sess w' = snd (fst (send_message_handler (sess w) req transport))
    /\ transportLog w'
       = (transportLog w
          ++ snd (send_message_handler (sess w) req transport))%list.
Proof.
  intros Hauth Hb. unfold send_message_handler. rewrite Hb.
  cbn [run step]. rewrite Hauth, Hb. cbn [timers].
  destruct (take_app_hit (timer_eqb (Pacing chat message)) (timers w)
              (Pacing chat message) (timer_eqb_refl _)) as [rest ->].
  cbn [fire sess timers inflight transportLog answered].
  destruct (take_app_hit
              (fun p => String.eqb (fst p) chat && String.eqb (snd p) message)
              (inflight w) (chat, message)) as [rest' ->].
  { cbn. now rewrite !String.eqb_refl. }
  destruct (send_message_settle (sess w) chat (transport chat message))
    as [resp s'].
  eexists. split; [reflexivity|]. split; reflexivity.
Qed.

(** * Further properties of the program *)

(** ** The middleware [validateSecretKey] *)

Lemma truthy_some (v : option string) :
  truthy v = true <-> exists k, v = Some k /\ k <> "".
Proof.
  destruct v as [k|]; simpl.
  - rewrite negb_true_iff, String.eqb_neq. split.
    + intros H. now exists k.
    + now intros (k' & [= <-] & H).
  - split; [discriminate | now intros (k & H & _)].
Qed.

(** X1: the middleware lets a request pass exactly when the effective key is
    a non-empty string equal to [process.env.SECRET_KEY]; the effective key
    is the header when the header is non-empty, the body field otherwise
    (so a wrong non-empty header is not rescued by a right body field). *)
Theorem validateSecretKey_passes_iff
    (SECRET_KEY : option string) (req : request) :
  validateSecretKey SECRET_KEY req = None <->
  exists k : string,
    k <> "" /\ SECRET_KEY = Some k
    /\ (if truthy (header_secret_key req)
        then header_secret_key req = Some k
        else body_secret_key req = Some k).
Proof.
  unfold validateSecretKey.
  set (secretKey := if truthy (header_secret_key req)
                    then header_secret_key req else body_secret_key req).
  assert ((exists k, k <> "" /\ SECRET_KEY = Some k
                     /\ (if truthy (header_secret_key req)
                         then header_secret_key req = Some k
                         else body_secret_key req = Some k))
          <-> (exists k, k <> "" /\ SECRET_KEY = Some k /\ secretKey = Some k))
    as ->.
  { subst secretKey. now destruct (truthy (header_secret_key req)). }
  destruct (truthy secretKey) eqn:T; cbn [negb].
  - apply truthy_some in T as (k & Hk & Hne). rewrite Hk.
    destruct SECRET_KEY as [k'|]; cbn [strictEq].
    + destruct (String.eqb_spec k k') as [<-|Hd]; cbn [negb].
      * split; [intros _; now exists k | reflexivity].
      * split; [discriminate|]. intros (k0 & _ & [= ->] & [= ->]). now elim Hd.
    + split; [discriminate|]. now intros (k0 & _ & H & _).
  - split; [discriminate|]. intros (k & Hne & _ & Hk).
    assert (truthy secretKey = true) as T'
        by (apply truthy_some; now exists k).
    congruence.
Qed.

Lemma validateSecretKey_passes_iff_witness :
  validateSecretKey (Some "s3cret")
    (mkRequest (Some "") (Some "s3cret") None None) = None
  /\ validateSecretKey (Some "s3cret")
       (mkRequest (Some "wrong") (Some "s3cret") None None) <> None.
Proof.
  split.
  - apply (proj2 (validateSecretKey_passes_iff (Some "s3cret")
                    (mkRequest (Some "") (Some "s3cret") None None))).
    exists "s3cret". split; [discriminate|]. split; reflexivity.
  - intros H.
    apply (proj1 (validateSecretKey_passes_iff (Some "s3cret")
                    (mkRequest (Some "wrong") (Some "s3cret") None None)))
      in H.
    destruct H as (k & _ & [= <-] & Hk). discriminate Hk.
Defined.

(** X2: when [process.env.SECRET_KEY] is unset or empty, every request is
    answered 401, whatever key it carries. *)
Theorem unset_secret_rejects_every_request
    (SECRET_KEY : option string) (req : request) :
  truthy SECRET_KEY = false ->
  exists r : response,
    validateSecretKey SECRET_KEY req = Some r /\ httpStatus r = 401.
Proof.
  intros HK.
  destruct (validateSecretKey SECRET_KEY req) as [r|] eqn:E.
  - exists r. split; [reflexivity|].
    unfold validateSecretKey in E.
    destruct (negb (truthy _)); [now injection E as <-|].
    destruct (negb (strictEq _ _)); [now injection E as <-|discriminate].
  - exfalso.
    assert (validateSecretKey SECRET_KEY req = None ->
            exists k, k <> "" /\ SECRET_KEY = Some k) as Hex.
    { unfold validateSecretKey.
      destruct (truthy (if truthy (header_secret_key req)
                        then header_secret_key req
                        else body_secret_key req)) eqn:T; [|discriminate].
      apply truthy_some in T as (k & -> & Hne). cbn [negb].
      destruct SECRET_KEY as [k'|]; cbn [strictEq]; [|discriminate].
      destruct (String.eqb_spec k k') as [<-|]; [|discriminate].
      intros _. now exists k. }
    destruct (Hex E) as (k & Hne & ->).
    simpl in HK. apply negb_false_iff, String.eqb_eq in HK. contradiction.
Qed.

Lemma unset_secret_rejects_every_request_witness :
  exists r : response,
    validateSecretKey None (mkRequest (Some "anything") None None None)
    = Some r
    /\ httpStatus r = 401.
Proof.
  apply (unset_secret_rejects_every_request None
           (mkRequest (Some "anything") None None None)).
  reflexivity.
Defined.

(** X3: a request the middleware refuses is answered 401 on each of the
    three routes; the session is left as it was, no call reaches the
    transport and no timer is armed: in the event loop the world only gains
    the response. *)
Theorem refused_request_is_inert
    (SECRET_KEY : option string) (req : request) (r : response) :
  validateSecretKey SECRET_KEY req = Some r ->
  httpStatus r = 401
  /\ (forall s transport,
         post_send_message SECRET_KEY s req transport = (r, s, []))
  /\ (forall s q now, get_status SECRET_KEY s req q now = (r, s, []))
  /\ (forall s d, get_restart SECRET_KEY s req d = (r, s, [], []))
  /\ (forall w q now d,
         step SECRET_KEY w (HttpSendMessage req) = Some (respond r w)
         /\ step SECRET_KEY w (HttpStatus req q now) = Some (respond r w)
         /\ step SECRET_KEY w (HttpRestart req d) = Some (respond r w)).
Proof.
  intros H. split; [|repeat split].
  - unfold validateSecretKey in H.
    destruct (negb (truthy _)); [now injection H as <-|].
    destruct (negb (strictEq _ _)); [now injection H as <-|discriminate].
  - intros s transport. unfold post_send_message. now rewrite H.
  - intros s q now. unfold get_status. now rewrite H.
  - intros s d. unfold get_restart. now rewrite H.
  - cbn [step]. now rewrite H.
  - cbn [step]. unfold get_status. rewrite H. unfold respond.
    now rewrite app_nil_r.
  - cbn [step]. unfold get_restart. rewrite H. unfold respond.
    now rewrite !app_nil_r.
Qed.

Lemma refused_request_is_inert_witness :
  get_restart (Some "s3cret") (mkSession true "CONNECTED")
    (mkRequest None None None None) Destroyed
  = (mkResponse 401
       [("status", JBool false);
        ("message", JString "Secret key diperlukan. Gunakan header x-secret-key atau body secret_key")],
     mkSession true "CONNECTED", [], []).
Proof.
  apply (refused_request_is_inert (Some "s3cret")
           (mkRequest None None None None) _ eq_refl).
Defined.

(** ** The normaliser, further *)

Lemma prefix_app (p d x : string) :
  String.prefix p d = true -> String.prefix p (d ++ x) = true.
Proof.
  revert d. induction p as [|c p IH]; intros d;
    [intros _; apply prefix_empty|].
  destruct d as [|c' d]; cbn [String.prefix append]; [discriminate|].
  destruct (ascii_dec c c'); [apply IH | discriminate].
Qed.

Lemma canonicalDigits_idempotent (d : string) :
  canonicalDigits_spec (canonicalDigits_spec d) = canonicalDigits_spec d.
Proof.
  unfold canonicalDigits_spec at 2 3.
  destruct (startsWith d "0") eqn:E0.
  - unfold canonicalDigits_spec. now rewrite startsWith_62.
  - destruct (negb (startsWith d "62") && (10 <? String.length d)) eqn:E1.
    + unfold canonicalDigits_spec. now rewrite startsWith_62.
    + unfold canonicalDigits_spec. now rewrite E0, E1.
Qed.

(** X4: [formatPhoneNumber] is idempotent: formatting a formatted address
    gives the same address (the suffix is stripped with the other
    non-digits and appended again, and the digits already carry their
    prefix). *)
Theorem formatPhoneNumber_idempotent (raw : string) :
  formatPhoneNumber (formatPhoneNumber raw) = formatPhoneNumber raw.
Proof.
  destruct (formatPhoneNumber_digits (formatPhoneNumber raw)) as [-> _].
  rewrite stripNonDigits_formatPhoneNumber, canonicalDigits_idempotent.
  symmetry. apply formatPhoneNumber_digits.
Qed.

(** X5: a number of more than ten digits always comes out with the country
    prefix [62]; a number of at most ten digits that does not start with
    [0] comes out with its digits as they are, prefix or not. *)
Theorem country_prefix_by_length (raw : string) :
  (10 < String.length (stripNonDigits raw) ->
   startsWith (formatPhoneNumber raw) "62" = true)
  /\ (String.length (stripNonDigits raw) <= 10 ->
      startsWith (stripNonDigits raw) "0" = false ->
      formatPhoneNumber raw = stripNonDigits raw ++ "@c.us").
Proof.
  destruct (formatPhoneNumber_digits raw) as [-> _].
  unfold canonicalDigits_spec. set (d := stripNonDigits raw).
  split.
  - intros Hlen. apply Nat.ltb_lt in Hlen. rewrite Hlen.
    apply prefix_app. fold (startsWith d "0"). fold (startsWith d "62").
    destruct (startsWith d "0"); [apply (startsWith_62 (substring1 d))|].
    destruct (startsWith d "62") eqn:E; cbn [negb andb];
      [exact E | apply (startsWith_62 d)].
  - intros Hlen H0. rewrite H0.
    apply Nat.ltb_ge in Hlen. rewrite Hlen, andb_false_r. reflexivity.
Qed.

Lemma country_prefix_by_length_witness :
  startsWith (formatPhoneNumber "81234567890") "62" = true
  /\ formatPhoneNumber "8123456789" = stripNonDigits "8123456789" ++ "@c.us".
Proof.
  split.
  - apply (proj1 (country_prefix_by_length "81234567890")). simpl. lia.
  - apply (proj2 (country_prefix_by_length "8123456789")).
    + simpl. lia.
    + reflexivity.
Defined.



(** ** POST /send-message, further *)

(** X7: the handler goes on to dispatch exactly when both parameters are
    present, the message is not empty, the number has 10 to 15 digits, the
    ready flag is true and the state is [CONNECTED] or [AUTHENTICATED]; it
    then holds the address of line 154 and the message as received. *)
Theorem send_message_begin_sleeps_iff
    (s : session) (req : request) (chat message : string) :
  send_message_begin s req = Sleep chat message <->
  exists number : string,
    body_number req = Some number
    /\ body_message req = Some message
    /\ message <> ""
    /\ isValidPhoneNumber number = true
    /\ isClientReady s = true
    /\ (clientState s = "CONNECTED" \/ clientState s = "AUTHENTICATED")
    /\ chat = chatId number.
Proof.
  split.
  - unfold send_message_begin.
    destruct (body_number req) as [number|]; [|discriminate].
    destruct (body_message req) as [m|]; [|discriminate].
    destruct (truthy (Some number)) eqn:Tn; [|discriminate].
    destruct (truthy (Some m)) eqn:Tm; [|discriminate]. cbn [negb orb].
    destruct (isValidPhoneNumber number) eqn:V; [|discriminate].
    cbn [negb].
    fold (notReady s). destruct (notReady s) eqn:G; [discriminate|].
    intros [= <- <-]. exists number.
    apply notReady_false in G as [Hr Hs].
    apply truthy_some in Tm as (m' & [= <-] & Hne).
    repeat split; auto.
  - intros (number & Hn & Hm & Hne & V & Hr & Hs & ->).
    rewrite (send_message_begin_present s req number message Hn Hm
               (valid_number_truthy _ V) (nonempty_truthy _ Hne)).
    now rewrite V, (proj2 (notReady_false s) (conj Hr Hs)).
Qed.

Lemma send_message_begin_sleeps_iff_witness :
  send_message_begin (mkSession true "AUTHENTICATED")
    (mkRequest None None (Some "0812-3456-7890") (Some "halo"))
  = Sleep "6281234567890@c.us" "halo".
Proof.
  apply (proj2 (send_message_begin_sleeps_iff
                  (mkSession true "AUTHENTICATED")
                  (mkRequest None None (Some "0812-3456-7890") (Some "halo"))
                  "6281234567890@c.us" "halo")).
  exists "0812-3456-7890". repeat split.
  - discriminate.
  - right. reflexivity.
Defined.

(** X8: when the request passes the middleware and the gate and the
    transport delivers, the answer is 200, its [to] field is the very
    address handed to the transport and its [messageId] is the identifier
    the transport returned; the session is left as it was. *)
Theorem delivered_message_reported
    (SECRET_KEY : option string) (s : session) (req : request)
    (chat message serializedId : string)
    (transport : string -> string -> send_result) :
  validateSecretKey SECRET_KEY req = None ->
  send_message_begin s req = Sleep chat message ->
  transport chat message = Delivered serializedId ->
  exists r : response,
    post_send_message SECRET_KEY s req transport
    = (r, s, [CallSendMessage chat message])
    /\ httpStatus r = 200
    /\ field "status" (body r) = Some (JBool true)
    /\ field "to" (body r) = Some (JString chat)
    /\ field "messageId" (body r) = Some (JString serializedId).
Proof.
  intros Hauth Hb Ht. unfold post_send_message, send_message_handler.
  rewrite Hauth, Hb, Ht. cbn [send_message_settle].
  eexists. split; [reflexivity|]. repeat split.
Qed.

Lemma delivered_message_reported_witness :
  exists r : response,
    post_send_message (Some "s3cret") (mkSession true "CONNECTED")
      (mkRequest (Some "s3cret") None (Some "081234567890") (Some "halo"))
      (fun _ _ => Delivered "true_6281234567890@c.us_3EB0")
    = (r, mkSession true "CONNECTED",
       [CallSendMessage "6281234567890@c.us" "halo"])
    /\ httpStatus r = 200
    /\ field "status" (body r) = Some (JBool true)
    /\ field "to" (body r) = Some (JString "6281234567890@c.us")
    /\ field "messageId" (body r)
       = Some (JString "true_6281234567890@c.us_3EB0").
Proof.
  apply (delivered_message_reported (Some "s3cret")
           (mkSession true "CONNECTED")
           (mkRequest (Some "s3cret") None (Some "081234567890")
                      (Some "halo"))
           "6281234567890@c.us" "halo" "true_6281234567890@c.us_3EB0"
           (fun _ _ => Delivered "true_6281234567890@c.us_3EB0")
           eq_refl eq_refl eq_refl).
Defined.






(** ** The event loop, further *)

Lemma timer_eqb_eq (a b : timer) : timer_eqb a b = true -> a = b.
Proof.
  destruct a, b; cbn; try discriminate; try reflexivity.
  intros H. apply andb_prop in H as [Hc Hm].
  apply String.eqb_eq in Hc, Hm. now subst.
Qed.

Lemma take_In {A : Type} (p : A -> bool) (l : list A) (x : A) :
  In x l -> p x = true -> exists rest, take p l = Some rest.
Proof.
  intros Hin Hx. induction l as [|y l IH]; [contradiction|]. cbn.
  destruct (p y) eqn:Hy; [now exists l|].
  destruct Hin as [-> | Hin]; [congruence|].
  destruct (IH Hin) as [rest ->]. now exists (y :: rest).
Qed.

Lemma take_forallb {A : Type} (p q : A -> bool) (l rest : list A) :
  take p l = Some rest -> forallb q l = true ->
  forallb q rest = true /\ exists x, p x = true /\ q x = true.
Proof.
  revert rest. induction l as [|y l IH]; intros rest; cbn; [discriminate|].
  intros Ht Hq. apply andb_prop in Hq as [Hy Hl].
  destruct (p y) eqn:Py.
  - injection Ht as <-. split; [exact Hl | now exists y].
  - destruct (take p l) as [r|]; [|discriminate]. injection Ht as <-.
    destruct (IH r eq_refl Hl) as [Hr Hx]. split; [|exact Hx].
    cbn. now rewrite Hy, Hr.
Qed.

(** A lifecycle event leaves the log and the pending sends alone and only
    adds timers. *)
Lemma lifecycle_step_frame
    (SECRET_KEY : option string) (w : world) (e : event) :
  lifecycleEvent e = true ->
  exists w',
    step SECRET_KEY w e = Some w'
    /\ transportLog w' = transportLog w
    /\ inflight w' = inflight w
    /\ forall t, In t (timers w) -> In t (timers w').
Proof.
  destruct e; try discriminate; intros _; cbn [step]; eexists;
    (split; [reflexivity|]); cbn; repeat split; auto;
    intros t Ht; apply in_or_app; now left.
Qed.

Lemma lifecycle_run_frame
    (SECRET_KEY : option string) (evs : list event) (w : world) :
  forallb lifecycleEvent evs = true ->
  exists w',
    run SECRET_KEY w evs = Some w'
    /\ transportLog w' = transportLog w
    /\ inflight w' = inflight w
    /\ forall t, In t (timers w) -> In t (timers w').
Proof.
  revert w. induction evs as [|e evs IH]; intros w; cbn [forallb run].
  - intros _. exists w. repeat split; auto.
  - intros H. apply andb_prop in H as [He Hevs].
    destruct (lifecycle_step_frame SECRET_KEY w e He)
      as (w1 & -> & Hlog & Hin & Ht).
    destruct (IH w1 Hevs) as (w' & Hrun & Hlog' & Hin' & Ht').
    exists w'. repeat split; [exact Hrun | congruence | congruence | auto].
Qed.

(** X10: the gate is evaluated once, before the two-second sleep.  Once a
    request has passed it, whatever lifecycle events arrive during the sleep
    (a disconnection, an authentication failure, a new QR code), the expiry
    of the sleep calls [client.sendMessage] with the address and message
    computed at request time; that expiry does not touch the session. *)
Theorem accepted_send_is_not_rechecked
    (SECRET_KEY : option string) (w : world) (req : request)
    (chat message : string) (evs : list event) :
  validateSecretKey SECRET_KEY req = None ->
  send_message_begin (sess w) req = Sleep chat message ->
  forallb lifecycleEvent evs = true ->
  exists w1 w2 : world,
    run SECRET_KEY w (HttpSendMessage req :: evs) = Some w1
    /\ step SECRET_KEY w1 (Fire (Pacing chat message)) = Some w2
    /\ sess w2 = sess w1
    /\ transportLog w2
       = (transportLog w ++ [CallSendMessage chat message])%list.
Proof.
  intros Hauth Hb Hevs. cbn [run step]. rewrite Hauth, Hb.
  set (w0 := mkWorld (sess w) (timers w ++ [Pacing chat message])%list
                     (inflight w) (transportLog w) (answered w)).
  destruct (lifecycle_run_frame SECRET_KEY evs w0 Hevs)
    as (w1 & Hrun & Hlog & _ & Ht).
  assert (In (Pacing chat message) (timers w1)) as Hin.
  { apply Ht. subst w0. cbn. apply in_or_app. right. now left. }
  destruct (take_In (timer_eqb (Pacing chat message)) (timers w1)
              (Pacing chat message) Hin (timer_eqb_refl _)) as [rest Hrest].
  exists w1. eexists. split; [exact Hrun|].
  cbn [step]. rewrite Hrest. split; [reflexivity|].
  cbn. split; [reflexivity|]. now rewrite Hlog.
Qed.

Lemma accepted_send_is_not_rechecked_witness :
  exists w1 w2 : world,
    run (Some "s3cret")
        (mkWorld (mkSession true "CONNECTED") [] [] [CallInitialize] [])
        [HttpSendMessage
           (mkRequest (Some "s3cret") None (Some "081234567890")
                      (Some "halo"));
         Disconnected]
    = Some w1
    /\ step (Some "s3cret") w1 (Fire (Pacing "6281234567890@c.us" "halo"))
       = Some w2
    /\ sess w2 = sess w1
    /\ transportLog w2
       = [CallInitialize; CallSendMessage "6281234567890@c.us" "halo"].
Proof.
  apply (accepted_send_is_not_rechecked (Some "s3cret")
           (mkWorld (mkSession true "CONNECTED") [] [] [CallInitialize] [])
           (mkRequest (Some "s3cret") None (Some "081234567890")
                      (Some "halo"))
           "6281234567890@c.us" "halo" [Disconnected]
           eq_refl eq_refl eq_refl).
Defined.

Lemma includes_chatId (number : string) : includes (chatId number) "@c.us" = true.
Proof.
  unfold chatId. destruct (includes number "@c.us") eqn:E; [exact E|].
  apply includes_formatPhoneNumber.
Qed.

Lemma send_message_begin_sleep_addressed
    (s : session) (req : request) (chat message : string) :
  send_message_begin s req = Sleep chat message ->
  wellAddressed chat message = true.
Proof.
  unfold send_message_begin.
  destruct (body_number req) as [number|]; [|discriminate].
  destruct (body_message req) as [m|]; [|discriminate].
  destruct (truthy (Some number)); [|discriminate].
  destruct (truthy (Some m)) eqn:Tm; [|discriminate]. cbn [negb orb].
  destruct (negb (isValidPhoneNumber number)); [discriminate|].
  destruct (negb (isClientReady s) || _); [discriminate|].
  intros [= <- <-]. unfold wellAddressed.
  rewrite includes_chatId. exact Tm.
Qed.

Lemma step_worldAddressed
    (SECRET_KEY : option string) (w w' : world) (e : event) :
  step SECRET_KEY w e = Some w' ->
  worldAddressed w = true -> worldAddressed w' = true.
Proof.
  unfold worldAddressed. intros Hs Hw.
  apply andb_prop in Hw as [Hw Hlog]. apply andb_prop in Hw as [Ht Hin].
  destruct e; cbn [step] in Hs.
  1-6: injection Hs as <-; cbn; rewrite forallb_app, Ht, Hin, Hlog;
       try reflexivity.
  - destruct (Z.eqb percent 100); reflexivity.
  - destruct (take (timer_eqb t) (timers w)) as [rest|] eqn:E;
      [|discriminate].
    destruct (take_forallb _ timerAddressed _ _ E Ht) as [Hrest (x & Hx & Hq)].
    apply timer_eqb_eq in Hx. subst x. injection Hs as <-.
    destruct t; cbn; rewrite ?forallb_app, Hrest, Hin, Hlog; try reflexivity.
    cbn in Hq. cbn. now rewrite Hq.
  - destruct (take _ (inflight w)) as [rest|] eqn:E; [|discriminate].
    destruct (take_forallb _ (fun p => wellAddressed (fst p) (snd p)) _ _ E Hin)
      as [Hrest _].
    destruct (send_message_settle (sess w) chat r) as [resp s].
    injection Hs as <-. cbn. now rewrite Ht, Hrest, Hlog.
  - destruct (validateSecretKey SECRET_KEY req);
      [injection Hs as <-; cbn; now rewrite Ht, Hin, Hlog|].
    destruct (send_message_begin (sess w) req) as [r|chat message] eqn:Hb;
      injection Hs as <-; cbn; [now rewrite Ht, Hin, Hlog|].
    rewrite forallb_app, Ht, Hin, Hlog. cbn.
    now rewrite (send_message_begin_sleep_addressed _ _ _ _ Hb).
  - unfold get_status in Hs.
    destruct (validateSecretKey SECRET_KEY req);
      [injection Hs as <-; cbn; now rewrite app_nil_r, Ht, Hin, Hlog|].
    unfold status_handler in Hs.
    destruct (isClientReady (sess w)); [destruct q|];
      injection Hs as <-; cbn; rewrite ?forallb_app, ?app_nil_r, Ht, Hin, Hlog;
      reflexivity.
  - unfold get_restart in Hs.
    destruct (validateSecretKey SECRET_KEY req);
      [injection Hs as <-; cbn; now rewrite !app_nil_r, Ht, Hin, Hlog|].
    unfold restart_handler in Hs.
    destruct d; injection Hs as <-; cbn;
      rewrite ?forallb_app, ?app_nil_r, Ht, Hin, Hlog; reflexivity.
Qed.

(** X11: in every run from the initial world, each [client.sendMessage]
    call made so far carried an address that contains [@c.us] and a
    non-empty message, and so does every send still sleeping or pending. *)
Theorem transport_sends_well_addressed
    (SECRET_KEY : option string) (evs : list event) (w : world) :
  run SECRET_KEY initialWorld evs = Some w ->
  worldAddressed w = true
  /\ forall chat message,
       In (CallSendMessage chat message) (transportLog w) ->
       includes chat "@c.us" = true /\ message <> "".
Proof.
  intros Hrun.
  assert (worldAddressed w = true) as Hw.
  { assert (forall evs w0 w1,
               run SECRET_KEY w0 evs = Some w1 ->
               worldAddressed w0 = true -> worldAddressed w1 = true) as Hgen.
    { clear. induction evs as [|e evs IH]; intros w0 w1; cbn [run].
      - now intros [= <-].
      - destruct (step SECRET_KEY w0 e) as [w2|] eqn:E; [|discriminate].
        intros Hr H0. apply (IH w2 w1 Hr).
        exact (step_worldAddressed SECRET_KEY w0 w2 e E H0). }
    apply (Hgen evs initialWorld w Hrun). reflexivity. }
  split; [exact Hw|].
  intros chat message Hin. unfold worldAddressed in Hw.
  apply andb_prop in Hw as [_ Hlog].
  rewrite forallb_forall in Hlog. specialize (Hlog _ Hin). cbn in Hlog.
  unfold wellAddressed in Hlog. apply andb_prop in Hlog as [Hc Hm].
  split; [exact Hc|]. now apply String.eqb_neq, negb_true_iff.
Qed.

Lemma transport_sends_well_addressed_witness :
  worldAddressed
    (mkWorld (mkSession true "CONNECTED") [] [("6281234567890@c.us", "halo")]
             [CallInitialize; CallSendMessage "6281234567890@c.us" "halo"]
             [])
  = true.
Proof.
  apply (transport_sends_well_addressed (Some "s3cret")
           [Ready;
            HttpSendMessage
              (mkRequest (Some "s3cret") None (Some "081234567890")
                         (Some "halo"));
            Fire (Pacing "6281234567890@c.us" "halo")]).
  reflexivity.
Defined.

(** ** The values of [clientState] *)

(** One turn of the loop either leaves [clientState] as it is (the ready flag
    is then kept or cleared) or assigns one of eight literals, none of which
    is [INITIALIZING]. *)
Lemma step_clientState (SECRET_KEY : option string) (w w' : world) (e : event) :
  step SECRET_KEY w e = Some w' ->
  (clientState (sess w') = clientState (sess w)
   /\ (isClientReady (sess w') = isClientReady (sess w)
       \/ isClientReady (sess w') = false))
  \/ In (clientState (sess w'))
        ["QR_GENERATED"; "CONNECTED"; "AUTHENTICATED"; "AUTH_FAILURE";
         "DISCONNECTED"; "LOADING"; "ERROR"; "RESTARTING"].
Proof.
  destruct e; cbn [step].
  1-6: intros [= <-]; right; cbn; tauto.
  - destruct (take (timer_eqb t) (timers w)) as [rest|]; [|discriminate].
    intros [= <-]. destruct t; cbn; auto.
    + unfold authenticated_timeout.
      destruct (String.eqb (clientState (sess w)) "AUTHENTICATED");
        cbn; auto.
    + unfold loading_timeout. destruct (negb (isClientReady (sess w)));
        cbn; auto.
  - destruct (take _ (inflight w)) as [rest|]; [|discriminate].
    pose proof (send_message_settle_ready (sess w) chat r) as H.
    destruct (send_message_settle (sess w) chat r) as [resp s].
    intros [= <-]. cbn in *. destruct H as [-> | ->]; cbn; auto 10.
  - destruct (validateSecretKey SECRET_KEY req); [intros [= <-]; auto|].
    destruct (send_message_begin (sess w) req); intros [= <-]; auto.
  - unfold get_status.
    destruct (validateSecretKey SECRET_KEY req); [intros [= <-]; auto|].
    pose proof (status_handler_ready (sess w) q now) as H.
    destruct (status_handler (sess w) q now) as [[resp s] made].
    intros [= <-]. cbn in *. destruct H as [-> | ->]; cbn; auto.
  - unfold get_restart.
    destruct (validateSecretKey SECRET_KEY req); [intros [= <-]; auto|].
    unfold restart_handler. destruct d; intros [= <-]; right; cbn; tauto.
Qed.

(** X12: in every run from the initial world, [clientState] is one of the
    nine literals the program assigns; the state string that
    [client.getState()] returns is reported by [/status] but never stored. *)
Theorem clientState_is_assigned_literal
    (SECRET_KEY : option string) (evs : list event) (w : world) :
  run SECRET_KEY initialWorld evs = Some w ->
  In (clientState (sess w)) assignedStates.
Proof.
  intros Hrun.
  apply (run_invariant SECRET_KEY
           (fun s => In (clientState s) assignedStates))
    with (w := initialWorld) (evs := evs); [|exact Hrun|].
  - intros w0 e w1 Hs H0.
    destruct (step_clientState SECRET_KEY w0 w1 e Hs) as [[-> _] | H];
      [exact H0|].
    cbn in H. cbn. tauto.
  - cbn. tauto.
Qed.

Lemma clientState_is_assigned_literal_witness :
  In (clientState (mkSession true "CONNECTED")) assignedStates.
Proof.
  apply (clientState_is_assigned_literal (Some "s3cret")
           [Ready; HttpStatus (mkRequest (Some "s3cret") None None None)
                              (StateIs "OPENING") "t"]
           (mkWorld (mkSession true "CONNECTED") [] []
              [CallInitialize; CallGetState]
              [mkResponse 200
                 [("status", JBool true);
                  ("message", JString "API WhatsApp berjalan normal");
                  ("clientReady", JBool true);
                  ("clientState", JString "OPENING");
                  ("timestamp", JString "t")]])).
  reflexivity.
Defined.

(** X13: [INITIALIZING] is only the value the script starts with: in a run
    from the initial world a session whose state reads [INITIALIZING] is
    still the initial session, and once the state has another value no
    event brings [INITIALIZING] back, not even a restart followed by the
    re-initialisation of the client. *)
Theorem initializing_is_never_reentered (SECRET_KEY : option string) :
  (forall evs w,
      run SECRET_KEY initialWorld evs = Some w ->
      clientState (sess w) = "INITIALIZING" ->
      sess w = initialSession)
  /\ (forall evs w w',
        run SECRET_KEY w evs = Some w' ->
        clientState (sess w) <> "INITIALIZING" ->
        clientState (sess w') <> "INITIALIZING").
Proof.
  split.
  - intros evs w Hrun.
    apply (run_invariant SECRET_KEY
             (fun s => clientState s = "INITIALIZING" -> s = initialSession))
      with (w := initialWorld) (evs := evs); [|exact Hrun | reflexivity].
    intros w0 e w1 Hs H0 H1.
    destruct (step_clientState SECRET_KEY w0 w1 e Hs) as [[Hc Hr] | H].
    + rewrite H1 in Hc. symmetry in Hc. specialize (H0 Hc).
      destruct (sess w1) as [ready state]. cbn in *. subst state.
      rewrite H0 in Hr. cbn in Hr. destruct Hr as [-> | ->]; reflexivity.
    + rewrite H1 in H. cbn in H.
      repeat (destruct H as [H|H]; [discriminate H|]). contradiction.
  - intros evs w w' Hrun.
    apply (run_invariant SECRET_KEY
             (fun s => clientState s <> "INITIALIZING"))
      with (w := w) (evs := evs); [|exact Hrun].
    intros w0 e w1 Hs H0 H1.
    destruct (step_clientState SECRET_KEY w0 w1 e Hs) as [[Hc _] | H].
    + congruence.
    + rewrite H1 in H. cbn in H.
      repeat (destruct H as [H|H]; [discriminate H|]). contradiction.
Qed.

Lemma initializing_is_never_reentered_witness :
  clientState (mkSession false "RESTARTING") <> "INITIALIZING".
Proof.
  apply (proj2 (initializing_is_never_reentered (Some "s3cret"))
           [HttpRestart (mkRequest (Some "s3cret") None None None) Destroyed;
            Fire Reinit]
           (mkWorld (mkSession true "CONNECTED") [] [] [CallInitialize] [])
           (mkWorld (mkSession false "RESTARTING") [] []
              [CallInitialize; CallDestroy; CallInitialize]
              [mkResponse 200
                 [("status", JBool true);
                  ("message", JString "Client WhatsApp sedang di-restart")]])).
  - reflexivity.
  - discriminate.
Defined.

(** ** GET /restart and GET /status, further *)



(** X15: after a status request whose state query failed, the next status
    request makes no query (the flag is now false), reports [clientReady]
    false together with the stored state, not [ERROR], and changes nothing;
    and a send requested in between is refused without a transport call. *)
Theorem status_after_failed_query
    (s : session) (now now' : string) (q : state_answer) :
  isClientReady s = true ->
  let s1 := snd (fst (status_handler s StateFails now)) in
  (exists r, status_handler s1 q now' = (r, s1, [])
             /\ field "clientReady" (body r) = Some (JBool false)
             /\ field "clientState" (body r) = Some (JString (clientState s)))
  /\ (forall req transport,
         snd (send_message_handler s1 req transport) = []
         /\ snd (fst (send_message_handler s1 req transport)) = s1).
Proof.
  intros Hr. unfold status_handler at 1. rewrite Hr. cbn [fst snd].
  split.
  - unfold status_handler. cbn. eexists. split; [reflexivity|].
    split; reflexivity.
  - intros req transport. unfold send_message_handler.
    destruct (send_message_begin _ req) as [r|chat message] eqn:Hb;
      [split; reflexivity|].
    exfalso. unfold send_message_begin in Hb.
    destruct (body_number req) as [n|]; [|discriminate].
    destruct (body_message req) as [m|]; [|discriminate].
    destruct (negb (truthy (Some n)) || negb (truthy (Some m)));
      [discriminate|].
    destruct (negb (isValidPhoneNumber n)); discriminate.
Qed.

Lemma status_after_failed_query_witness :
  exists r,
    status_handler (mkSession false "CONNECTED") (StateIs "CONNECTED") "t2"
    = (r, mkSession false "CONNECTED", [])
    /\ field "clientReady" (body r) = Some (JBool false)
    /\ field "clientState" (body r) = Some (JString "CONNECTED").
Proof.
  exact (proj1 (status_after_failed_query (mkSession true "CONNECTED")
                  "t1" "t2" (StateIs "CONNECTED") eq_refl)).
Defined.

(** ** The authentication grace timer, further *)

(** X16: the 5000 ms timer promotes the session only if [authenticated] was
    the last event to assign the state.  After any other lifecycle event (a
    QR code, ready, an authentication failure, a disconnection, a
    loading-progress event of any percentage) its expiry leaves the session
    as that event left it; straight after [authenticated] it makes the
    session ready and [CONNECTED], whatever the session was before. *)
Theorem authentication_grace_superseded
    (SECRET_KEY : option string) (w : world) :
  (forall e w1 w2,
      supersedesAuthentication e = true ->
      step SECRET_KEY w e = Some w1 ->
      step SECRET_KEY w1 (Fire AuthGrace) = Some w2 ->
      sess w2 = sess w1)
  /\ option_map sess (run SECRET_KEY w [Authenticated; Fire AuthGrace])
     = Some (mkSession true "CONNECTED").
Proof.
  split.
  - intros e w1 w2 He Hs Hf.
    assert (authenticated_timeout (sess w1) = sess w1) as Hstale.
    { destruct e; try discriminate; cbn [step] in Hs; injection Hs as <-;
        reflexivity. }
    cbn [step] in Hf.
    destruct (take (timer_eqb AuthGrace) (timers w1)) as [rest|];
      [|discriminate].
    injection Hf as <-. exact Hstale.
  - cbn [run step lifecycle on_authenticated timers].
    destruct (take_app_hit (timer_eqb AuthGrace) (timers w) AuthGrace eq_refl)
      as [rest' ->].
    reflexivity.
Qed.

Lemma authentication_grace_superseded_witness :
  sess (mkWorld (mkSession false "LOADING") [] [] [CallInitialize] [])
  = sess (mkWorld (mkSession false "LOADING") [AuthGrace] []
                  [CallInitialize] []).
Proof.
  apply (proj1 (authentication_grace_superseded None
                  (mkWorld (mkSession false "AUTHENTICATED") [AuthGrace] []
                           [CallInitialize] []))
           (LoadingScreen 40)
           (mkWorld (mkSession false "LOADING") [AuthGrace] []
                    [CallInitialize] [])
           (mkWorld (mkSession false "LOADING") [] [] [CallInitialize] [])
           eq_refl eq_refl eq_refl).
Defined.

(** ** Formatting characters *)

Lemma includes_digits_no_suffix (d : string) :
  allDigits d = true -> includes d "@c.us" = false.
Proof.
  induction d as [|c d IH]; [reflexivity|]. cbn [allDigits includes].
  intros H. apply andb_prop in H as [Hc Hd]. rewrite (IH Hd).
  rewrite orb_false_r. cbn [String.prefix].
  destruct (ascii_dec "@" c) as [<-|]; [discriminate Hc | reflexivity].
Qed.

(** X17: only the digits of the input matter to the validity test and to
    [formatPhoneNumber]: spaces, dashes, a leading [+] or any other
    non-digit characters change neither; and for an input without [@c.us]
    the dispatch address is that of its digits alone. *)
Theorem only_digits_matter (raw : string) :
  isValidPhoneNumber raw = isValidPhoneNumber (stripNonDigits raw)
  /\ formatPhoneNumber raw = formatPhoneNumber (stripNonDigits raw)
  /\ (includes raw "@c.us" = false ->
      chatId raw = chatId (stripNonDigits raw)).
Proof.
  pose proof (stripNonDigits_fixed _ (stripNonDigits_allDigits raw)) as Hfix.
  assert (formatPhoneNumber raw = formatPhoneNumber (stripNonDigits raw))
    as Hfmt by (unfold formatPhoneNumber; now rewrite Hfix).
  split; [|split].
  - unfold isValidPhoneNumber. now rewrite Hfix.
  - exact Hfmt.
  - intros H. unfold chatId. rewrite H.
    now rewrite (includes_digits_no_suffix _ (stripNonDigits_allDigits raw)).
Qed.

Lemma only_digits_matter_witness :
  chatId "+62 812-3456-7890" = chatId (stripNonDigits "+62 812-3456-7890").
Proof.
  apply (proj2 (proj2 (only_digits_matter "+62 812-3456-7890"))).
  reflexivity.
Defined.

(** ** The [status] field of the responses *)

Lemma validateSecretKey_refusal_agrees
    (SECRET_KEY : option string) (req : request) (r : response) :
  validateSecretKey SECRET_KEY req = Some r -> statusAgrees r.
Proof.
  unfold validateSecretKey.
  destruct (negb (truthy _)); [now intros [= <-]|].
  destruct (negb (strictEq _ _)); [now intros [= <-] | discriminate].
Qed.

(** X18: on [/send-message] and [/restart], whatever the inputs, the
    [status] field of the body is [true] exactly when the answer is 200.
    [/status] answers 200 with [status] true to every authorised request,
    also when the state query fails. *)
Theorem status_field_agrees_with_code
    (SECRET_KEY : option string) (s : session) (req : request) :
  (forall transport,
      statusAgrees (fst (fst (post_send_message SECRET_KEY s req transport))))
  /\ (forall d,
        statusAgrees (fst (fst (fst (get_restart SECRET_KEY s req d)))))
  /\ (forall q now,
        statusAgrees (fst (fst (get_status SECRET_KEY s req q now)))
        /\ (validateSecretKey SECRET_KEY req = None ->
            httpStatus (fst (fst (get_status SECRET_KEY s req q now))) = 200)).
Proof.
  split; [|split].
  - intros transport. unfold post_send_message.
    destruct (validateSecretKey SECRET_KEY req) as [r|] eqn:E.
    { exact (validateSecretKey_refusal_agrees _ _ _ E). }
    unfold send_message_handler.
    destruct (send_message_begin s req) as [r|chat message] eqn:Hb.
    + cbn [fst]. unfold send_message_begin in Hb.
      destruct (body_number req) as [n|]; [|now injection Hb as <-].
      destruct (body_message req) as [m|]; [|now injection Hb as <-].
      destruct (negb (truthy (Some n)) || negb (truthy (Some m)));
        [now injection Hb as <-|].
      destruct (negb (isValidPhoneNumber n)); [now injection Hb as <-|].
      destruct (negb (isClientReady s) || _);
        [now injection Hb as <- | discriminate].
    + unfold send_message_settle.
      destruct (transport chat message) as [id|msg]; [reflexivity|].
      destruct (includes msg "Chat not found"); [reflexivity|].
      destruct (includes msg "phone number is not registered");
        [reflexivity|].
      destruct (includes msg "Evaluation failed"); reflexivity.
  - intros d. unfold get_restart.
    destruct (validateSecretKey SECRET_KEY req) as [r|] eqn:E.
    { exact (validateSecretKey_refusal_agrees _ _ _ E). }
    destruct d; reflexivity.
  - intros q now. unfold get_status.
    destruct (validateSecretKey SECRET_KEY req) as [r|] eqn:E.
    { split; [exact (validateSecretKey_refusal_agrees _ _ _ E) | discriminate]. }
    unfold status_handler.
    destruct (isClientReady s); [destruct q|]; split; reflexivity.
Qed.

Lemma status_field_agrees_with_code_witness :
  httpStatus
    (fst (fst (get_status (Some "s3cret") (mkSession true "CONNECTED")
                 (mkRequest (Some "s3cret") None None None)
                 StateFails "t")))
  = 200.
Proof.
  apply (proj2 (proj2 (proj2 (status_field_agrees_with_code (Some "s3cret")
                                (mkSession true "CONNECTED")
                                (mkRequest (Some "s3cret") None None None)))
                  StateFails "t")).
  reflexivity.
Defined.
